(** * ct-review-tool: section extraction, comment injection and the
      fallback annotator of [core_functionality.py] (and the simpler
      extractor of [app.py]), embedded in Rocq. *)

From Stdlib Require Import String Ascii List Bool Arith Lia QArith ZArith Sorted.
Import ListNotations.
Local Open Scope nat_scope.
Local Open Scope string_scope.

(** ** Python string helpers, on the ASCII subset *)

Module PyStr.

(** [str.isspace] on ASCII: \t \n \v \f \r, \x1c-\x1f and the space. *)
Definition is_space (c : ascii) : bool :=
  let n := nat_of_ascii c in
  (Nat.leb 9 n && Nat.leb n 13) || (Nat.leb 28 n && Nat.leb n 32).

Definition is_upper_c (c : ascii) : bool :=
  let n := nat_of_ascii c in Nat.leb 65 n && Nat.leb n 90.

Definition is_lower_c (c : ascii) : bool :=
  let n := nat_of_ascii c in Nat.leb 97 n && Nat.leb n 122.

Definition lower_c (c : ascii) : ascii :=
  if is_upper_c c then ascii_of_nat (nat_of_ascii c + 32) else c.

Definition upper_c (c : ascii) : ascii :=
  if is_lower_c c then ascii_of_nat (nat_of_ascii c - 32) else c.

Fixpoint map_str (f : ascii -> ascii) (s : string) : string :=
  match s with
  | EmptyString => EmptyString
  | String c s' => String (f c) (map_str f s')
  end.

(** [str.lower] and [str.upper] on 7-bit ASCII text; other characters are
    left as they are, which Python's Unicode case mapping does not do
    (it maps, e.g., the dotless i to I). *)
Definition lower (s : string) : string := map_str lower_c s.
Definition upper (s : string) : string := map_str upper_c s.

(** the text is 7-bit ASCII, where [lower] and [upper] are Python's *)
Definition ascii7 (s : string) : bool :=
  forallb (fun c => Nat.ltb (nat_of_ascii c) 128) (list_ascii_of_string s).

Fixpoint lstrip_by (p : ascii -> bool) (s : string) : string :=
  match s with
  | EmptyString => EmptyString
  | String c s' => if p c then lstrip_by p s' else s
  end.

Fixpoint drop_while {A} (p : A -> bool) (l : list A) : list A :=
  match l with
  | [] => []
  | x :: l' => if p x then drop_while p l' else l
  end.

Definition rstrip_by (p : ascii -> bool) (s : string) : string :=
  string_of_list_ascii (rev (drop_while p (rev (list_ascii_of_string s)))).

(** [str.strip()] *)
Definition strip (s : string) : string := rstrip_by is_space (lstrip_by is_space s).

(** [str.rstrip(':')] *)
Definition rstrip_colon (s : string) : string :=
  rstrip_by (fun c => Ascii.eqb c ":"%char) s.

(** [str.endswith(':')] *)
Definition ends_with_colon (s : string) : bool :=
  match rev (list_ascii_of_string s) with
  | c :: _ => Ascii.eqb c ":"%char
  | [] => false
  end.

(** [str.isupper()]: at least one cased character, none of them lower-case. *)
Definition isupper (s : string) : bool :=
  let l := list_ascii_of_string s in
  existsb is_upper_c l && negb (existsb is_lower_c l).

(** [pat in s] *)
Fixpoint contains (pat s : string) : bool :=
  prefix pat s ||
  match s with
  | EmptyString => false
  | String _ s' => contains pat s'
  end.

(** [sep.join(l)] *)
Fixpoint join (sep : string) (l : list string) : string :=
  match l with
  | [] => ""
  | [x] => x
  | x :: l' => x ++ sep ++ join sep l'
  end.

Definition nl : string := String (ascii_of_nat 10) EmptyString.

(** a Python dict with insertion order: [d[k] = v] *)
Fixpoint dict_set {V} (k : string) (v : V) (d : list (string * V)) : list (string * V) :=
  match d with
  | [] => [(k, v)]
  | (k', v') :: d' => if String.eqb k' k then (k', v) :: d' else (k', v') :: dict_set k v d'
  end.

End PyStr.
Import PyStr.

(** ** Paragraphs as the extractor reads them from python-docx *)

(** [run.bold] is [True], [False] or [None] (inherited). *)
Definition run := option bool.

Record para := mkpara { p_text : string; p_runs : list run }.

Definition bold_count (runs : list run) : nat :=
  length (filter (fun r => match r with Some true => true | _ => false end) runs).

(** [if para.runs: is_bold = bold_runs > total_runs / 2] (true division). *)
Definition is_bold (runs : list run) : bool :=
  match runs with
  | [] => false
  | _ => negb (Qle_bool (inject_Z (Z.of_nat (bold_count runs)))
                        (inject_Z (Z.of_nat (length runs)) / 2))
  end.

Definition STANDARD_SECTIONS : list string :=
  [ "Executive Summary"; "Background"; "Resolving Actions"; "Root Cause";
    "Preventative Actions"; "Investigation Process"; "Seller Classification";
    "Documentation and Reporting"; "Impact Assessment"; "Timeline";
    "Recommendations" ].

Definition EXCLUDED_SECTIONS : list string :=
  [ "Original Email"; "Email Correspondence"; "Raw Data"; "Logs"; "Attachments" ].

(** ** [extract_document_sections_from_docx] (core_functionality.py).
    The function also fills [section_paragraphs] and [paragraph_indices]
    under exactly the same keys at the same points; only [sections] is
    modelled. *)
Module Core.

Definition is_section_header (p : para) : bool :=
  let text := strip (p_text p) in
  if is_bold (p_runs p) && negb (String.eqb text "") && Nat.ltb (String.length text) 100 then
    if existsb (fun std => contains (lower std) (lower text)) STANDARD_SECTIONS then true
    else ends_with_colon text || isupper text
  else false.

Definition is_excluded (name : string) : bool :=
  existsb (fun excluded => contains (lower excluded) (lower name)) EXCLUDED_SECTIONS.

(** [current_section] is [None] or a string; Python tests its truthiness. *)
Definition close_section (cur : option string) (content : list string)
    (sections : list (string * string)) : list (string * string) :=
  match cur, content with
  | Some name, _ :: _ =>
      if String.eqb name "" then sections
      else if is_excluded name then sections
      else dict_set name (join nl content) sections
  | _, _ => sections
  end.

Record xstate := mkx {
  current_section : option string;
  current_content : list string;
  sections : list (string * string) }.

Definition init : xstate := mkx None [] [].

(** one iteration of the [for idx, para in enumerate(doc.paragraphs)] loop *)
Definition step (s : xstate) (p : para) : xstate :=
  let text := strip (p_text p) in
  if is_section_header p then
    mkx (Some (rstrip_colon text)) []
        (close_section (current_section s) (current_content s) (sections s))
  else if String.eqb text "" then s
  else mkx (current_section s) (current_content s ++ [text]) (sections s).

(** the loop and the final close after it *)
Definition header_pass (ps : list para) : list (string * string) :=
  let s := fold_left step ps init in
  close_section (current_section s) (current_content s) (sections s).

Definition fallback (ps : list para) : list (string * string) :=
  [("Main Content",
    join nl (map p_text (filter (fun p => negb (String.eqb (strip (p_text p)) "")) ps)))].

Definition extract_document_sections_from_docx (ps : list para) : list (string * string) :=
  match header_pass ps with
  | [] => fallback ps
  | secs => secs
  end.

End Core.

(** ** [extract_sections] (app.py) *)
Module App.

Record astate := mka {
  current_section : string;
  content : list string;
  sections : list (string * string) }.

Definition init : astate := mka "Main Content" [] [].

Definition step (s : astate) (p : para) : astate :=
  let text := strip (p_text p) in
  if String.eqb text "" then s
  else
    let is_header := is_bold (p_runs p) && Nat.ltb (String.length text) 100 in
    if is_header && (ends_with_colon text || isupper text) then
      mka (rstrip_colon text) []
          (match content s with
           | [] => sections s
           | _ => dict_set (current_section s) (join nl (content s)) (sections s)
           end)
    else mka (current_section s) (content s ++ [text]) (sections s).

Definition extract_sections (ps : list para) : list (string * string) :=
  let s := fold_left step ps init in
  match content s with
  | [] => sections s
  | _ => dict_set (current_section s) (join nl (content s)) (sections s)
  end.

End App.

(** ** [WordDocumentWithComments] (core_functionality.py) *)
Module Injector.

Definition dq : string := String (ascii_of_nat 34) EmptyString.

Fixpoint sp (n : nat) : string :=
  match n with 0 => "" | S m => String " "%char (sp m) end.

Fixpoint digits_aux (fuel n : nat) (acc : string) : string :=
  match fuel with
  | 0 => acc
  | S f =>
      let acc' := String (ascii_of_nat (48 + n mod 10)) acc in
      if Nat.ltb n 10 then acc' else digits_aux f (n / 10) acc'
  end.

(** [str(n)] for a non-negative int *)
Definition str_of_nat (n : nat) : string := digits_aux (S n) n "".

Fixpoint zeros (n : nat) : string :=
  match n with 0 => "" | S m => String "0"%char (zeros m) end.

(** the zero padding of a [strftime] field of width [w] *)
Definition zpad (w : nat) (s : string) : string := zeros (w - String.length s) ++ s.

(** a naive [datetime] as returned by [datetime.now()] *)
Record datetime := mkdt {
  year : nat; month : nat; day : nat;
  hour : nat; minute : nat; second : nat; microsecond : nat }.

(** [strftime('%Y-%m-%dT%H:%M:%S.%fZ')] *)
Definition iso_format (d : datetime) : string :=
  zpad 4 (str_of_nat (year d)) ++ "-" ++ zpad 2 (str_of_nat (month d)) ++ "-" ++
  zpad 2 (str_of_nat (day d)) ++ "T" ++ zpad 2 (str_of_nat (hour d)) ++ ":" ++
  zpad 2 (str_of_nat (minute d)) ++ ":" ++ zpad 2 (str_of_nat (second d)) ++ "." ++
  zpad 6 (str_of_nat (microsecond d)) ++ "Z".

(** an archive, or the files of an extracted archive: relative path -> content *)
Definition package := list (string * string).

Fixpoint lookup (k : string) (d : package) : option string :=
  match d with
  | [] => None
  | (k', v) :: d' => if String.eqb k' k then Some v else lookup k d'
  end.

(** the staged comment dict of [add_comment]; [paragraph_index] is any
    Python value, an int here *)
Record comment := mkcomment {
  c_id : nat; c_paragraph_index : Z; c_text : string; c_author : string; c_date : datetime }.

Record wdoc := mkw {
  doc_path : option package;   (* the file at [self.doc_path], [None] if not an archive *)
  comments : list comment;
  comment_id : nat }.

Definition new_wdoc (pkg : option package) : wdoc := mkw pkg [] 1.

(** [add_comment]; [now] is the value of [datetime.now()] at the call *)
Definition add_comment (w : wdoc) (paragraph_index : Z) (comment_text author : string)
    (now : datetime) : wdoc :=
  mkw (doc_path w)
      (comments w ++ [mkcomment (comment_id w) paragraph_index comment_text author now])
      (comment_id w + 1).

Definition W_NS : string := "http://schemas.openxmlformats.org/wordprocessingml/2006/main".

Definition create_comment_xml (c : comment) : string :=
  nl ++ sp 8 ++ "<w:comment w:id=" ++ dq ++ str_of_nat (c_id c) ++ dq ++
  " w:author=" ++ dq ++ c_author c ++ dq ++ " " ++ nl ++
  sp 19 ++ "w:date=" ++ dq ++ iso_format (c_date c) ++ dq ++ " " ++ nl ++
  sp 19 ++ "xmlns:w=" ++ dq ++ W_NS ++ dq ++ ">" ++ nl ++
  sp 12 ++ "<w:p>" ++ nl ++
  sp 16 ++ "<w:r>" ++ nl ++
  sp 20 ++ "<w:t>" ++ c_text c ++ "</w:t>" ++ nl ++
  sp 16 ++ "</w:r>" ++ nl ++
  sp 12 ++ "</w:p>" ++ nl ++
  sp 8 ++ "</w:comment>" ++ nl ++ sp 8.

Definition comments_header : string :=
  "<?xml version=" ++ dq ++ "1.0" ++ dq ++ " encoding=" ++ dq ++ "UTF-8" ++ dq ++
  " standalone=" ++ dq ++ "yes" ++ dq ++ "?>" ++ nl ++
  sp 12 ++ "<w:comments xmlns:w=" ++ dq ++ W_NS ++ dq ++ ">" ++ nl ++ sp 12.

Definition comments_xml (cs : list comment) : string :=
  comments_header ++ String.concat "" (map create_comment_xml cs) ++ "</w:comments>".

(** [str.replace(pat, rep)] for a non-empty [pat] *)
Fixpoint replace_fuel (fuel : nat) (pat rep s : string) : string :=
  match fuel with
  | 0 => s
  | S f =>
      match s with
      | EmptyString => EmptyString
      | String c s' =>
          if prefix pat s
          then rep ++ replace_fuel f pat rep
                 (substring (String.length pat) (String.length s - String.length pat) s)
          else String c (replace_fuel f pat rep s')
      end
  end.

Definition replace (pat rep s : string) : string := replace_fuel (String.length s) pat rep s.

Definition comments_path : string := "word/comments.xml".
Definition rels_path : string := "word/_rels/document.xml.rels".
Definition content_types_path : string := "[Content_Types].xml".

Definition new_rel : string :=
  "<Relationship Id=" ++ dq ++ "rIdComments" ++ dq ++ " Type=" ++ dq ++
  "http://schemas.openxmlformats.org/officeDocument/2006/relationships/comments" ++ dq ++
  " Target=" ++ dq ++ "comments.xml" ++ dq ++ "/>".

Definition new_type : string :=
  "<Override PartName=" ++ dq ++ "/word/comments.xml" ++ dq ++ " ContentType=" ++ dq ++
  "application/vnd.openxmlformats-officedocument.wordprocessingml.comments+xml" ++ dq ++ "/>".

(** [_update_document_relationships], on the extracted files *)
Definition update_document_relationships (files : package) : package :=
  let files1 :=
    match lookup rels_path files with
    | Some rels_content =>
        if negb (contains "comments.xml" rels_content)
        then dict_set rels_path
               (replace "</Relationships>" (new_rel ++ "</Relationships>") rels_content) files
        else files
    | None => files
    end in
  match lookup content_types_path files1 with
  | Some content =>
      if negb (contains "comments.xml" content)
      then dict_set content_types_path
             (replace "</Types>" (new_type ++ "</Types>") content) files1
      else files1
  | None => files1
  end.

End Injector.

(** ** [save_with_comments]: the scratch directory, the intermediate
    archive and the output archive as explicit state. Each I/O call of the
    [try] body may raise, selected by a [fault]; the cleanup calls of the
    [except] handler may raise too, selected by a [hfault]. python-docx
    itself is not modelled: it is a [docx_lib], and every statement below
    holds for any. *)
Module Save.
Import Injector.

Record fs := mkfs {
  scratch : option package;     (* the directory [self.temp_dir] *)
  temp_docx : option package;   (* the file [f"{self.temp_dir}_temp.docx"] *)
  output : option package }.    (* the file [output_path] *)

(** fresh uuid-based names and a timestamped output name: nothing exists yet *)
Definition fs0 : fs := mkfs None None None.

(** the first call of the [try] body that raises; a call that raises
    leaves the files as they were before it, except where an argument
    says how far it got *)
Inductive fault :=
| NoFault
| FailSaveTemp (created : bool)  (* doc.save(temp_docx), after creating the file or not *)
| FailMakedirs                   (* os.makedirs(self.temp_dir) *)
| FailExtract                    (* zip_ref.extractall(self.temp_dir) *)
| FailWriteComments              (* writing word/comments.xml *)
| FailUpdateRels                 (* reading or writing a manifest *)
| FailZipOpen                    (* zipfile.ZipFile(output_path, 'w') *)
| FailZipWrite (n : nat)         (* zipf.write of the (n+1)-th file *)
| FailRmtree (n : nat)           (* shutil.rmtree(self.temp_dir), after deleting n files *)
| FailRemoveTemp.                (* os.remove(temp_docx) *)

(** the cleanup calls of the [except] handler *)
Inductive hfault :=
| HandlerOk
| HandlerFailRmtree (n : nat)    (* shutil.rmtree(self.temp_dir), after deleting n files *)
| HandlerFailRemove.             (* os.remove(temp_docx) *)

Inductive outcome := Returned (b : bool) | Raised (exn : string).

Definition M (A : Type) : Type := fs -> (A + string) * fs.
Definition ret {A} (a : A) : M A := fun s => (inl a, s).
Definition bind {A B} (m : M A) (k : A -> M B) : M B :=
  fun s => let (r, s') := m s in
           match r with inl a => k a s' | inr e => (inr e, s') end.
Local Notation "x <- m ;; k" := (bind m (fun x => k))
  (at level 61, m at next level, right associativity).

Definition dir_files (s : fs) : package :=
  match scratch s with Some d => d | None => [] end.

(** python-docx: [lib p] is the package [doc.save] writes once
    [doc = Document(path)] has loaded the archive [p] found at [path], or
    [None] when [Document(path)] raises. python-docx re-serializes the parts
    it reaches, regenerates the content-type manifest and the .rels parts
    and leaves out unreachable parts, so [lib p] is in general not [p]. *)
Definition docx_lib := package -> option package.

(** [Document(self.doc_path)]; [None] for a path that holds no archive *)
Definition docx_open (lib : docx_lib) (p : option package) : option package :=
  match p with Some pkg => lib pkg | None => None end.

(** [extractall]: every member written into the directory *)
Definition extract_into (z : package) (d : package) : package :=
  fold_left (fun acc kv => dict_set (fst kv) (snd kv) acc) z d.

(** the [try] body after [Document(self.doc_path)] has given [doc], the
    package [doc.save(temp_docx)] writes *)
Definition try_body (doc : package) (w : wdoc) (f : fault) : M bool :=
  (* doc.save(temp_docx) *)
  u1 <- (fun s => match f with
                  | FailSaveTemp created =>
                      (inr "OSError",
                       mkfs (scratch s) (if created then Some [] else temp_docx s) (output s))
                  | _ => (inl tt, mkfs (scratch s) (Some doc) (output s))
                  end) ;;
  (* os.makedirs(self.temp_dir, exist_ok=True) *)
  u2 <- (fun s => match f with
                  | FailMakedirs => (inr "OSError", s)
                  | _ => (inl tt, mkfs (Some (dir_files s)) (temp_docx s) (output s))
                  end) ;;
  (* with zipfile.ZipFile(temp_docx, 'r') as zip_ref: zip_ref.extractall(...) *)
  u3 <- (fun s => match f, temp_docx s with
                  | FailExtract, _ => (inr "BadZipFile", s)
                  | _, Some z => (inl tt, mkfs (Some (extract_into z (dir_files s)))
                                              (temp_docx s) (output s))
                  | _, None => (inr "FileNotFoundError", s)
                  end) ;;
  (* comments_xml built from self.comments, written to word/comments.xml *)
  u4 <- (fun s => match f with
                  | FailWriteComments => (inr "OSError", s)
                  | _ => (inl tt, mkfs (Some (dict_set comments_path
                                                (comments_xml (comments w)) (dir_files s)))
                                      (temp_docx s) (output s))
                  end) ;;
  (* self._update_document_relationships() *)
  u5 <- (fun s => match f with
                  | FailUpdateRels => (inr "OSError", s)
                  | _ => (inl tt, mkfs (Some (update_document_relationships (dir_files s)))
                                      (temp_docx s) (output s))
                  end) ;;
  (* with zipfile.ZipFile(output_path, 'w') as zipf: zipf.write(...) per file;
     on an exception inside the block the archive is closed with the files
     written so far *)
  u6 <- (fun s => let files := dir_files s in
                  match f with
                  | FailZipOpen => (inr "OSError", s)
                  | FailZipWrite n =>
                      if Nat.ltb n (length files)
                      then (inr "OSError", mkfs (scratch s) (temp_docx s) (Some (firstn n files)))
                      else (inl tt, mkfs (scratch s) (temp_docx s) (Some files))
                  | _ => (inl tt, mkfs (scratch s) (temp_docx s) (Some files))
                  end) ;;
  (* shutil.rmtree(self.temp_dir) *)
  u7 <- (fun s => match f with
                  | FailRmtree n =>
                      (inr "OSError", mkfs (Some (skipn n (dir_files s))) (temp_docx s) (output s))
                  | _ => (inl tt, mkfs None (temp_docx s) (output s))
                  end) ;;
  (* os.remove(temp_docx) *)
  u8 <- (fun s => match f with
                  | FailRemoveTemp => (inr "OSError", s)
                  | _ => (inl tt, mkfs (scratch s) None (output s))
                  end) ;;
  ret true.

(** the [except] handler once [temp_docx] is bound: [Some e] when one of
    its own calls raises [e], which then leaves [save_with_comments] *)
Definition handler (hf : hfault) (s : fs) : option string * fs :=
  (* if os.path.exists(self.temp_dir): shutil.rmtree(self.temp_dir) *)
  match scratch s, hf with
  | Some d, HandlerFailRmtree n => (Some "OSError", mkfs (Some (skipn n d)) (temp_docx s) (output s))
  | _, _ =>
      let s1 := match scratch s with Some _ => mkfs None (temp_docx s) (output s) | None => s end in
      (* if os.path.exists(temp_docx): os.remove(temp_docx) *)
      match temp_docx s1, hf with
      | Some _, HandlerFailRemove => (Some "OSError", s1)
      | Some _, _ => (None, mkfs (scratch s1) None (output s1))
      | None, _ => (None, s1)
      end
  end.

Definition save_with_comments (lib : docx_lib) (w : wdoc) (f : fault) (hf : hfault) (s0 : fs)
    : outcome * fs :=
  match docx_open lib (doc_path w) with
  | None =>
      (* [Document()] raised before [temp_docx] was assigned: the handler
         removes [self.temp_dir] if present, then [os.path.exists(temp_docx)]
         raises [UnboundLocalError] out of the handler *)
      match scratch s0, hf with
      | Some d, HandlerFailRmtree n =>
          (Raised "OSError", mkfs (Some (skipn n d)) (temp_docx s0) (output s0))
      | Some _, _ => (Raised "UnboundLocalError", mkfs None (temp_docx s0) (output s0))
      | None, _ => (Raised "UnboundLocalError", s0)
      end
  | Some doc =>
      match try_body doc w f s0 with
      | (inl b, s') => (Returned b, s')
      | (inr _, s') =>
          match handler hf s' with
          | (None, s'') => (Returned false, s'')
          | (Some e, s'') => (Raised e, s'')
          end
      end
  end.

(** the loop of [create_reviewed_document_with_proper_comments]: one
    [add_comment] per (paragraph_index, comment, author, now) *)
Definition stage (pkg : option package) (cs : list (Z * string * string * datetime)) : wdoc :=
  fold_left (fun w c => match c with (i, t, a, d) => add_comment w i t a d end)
            cs (new_wdoc pkg).

Definition inject (lib : docx_lib) (pkg : option package)
    (cs : list (Z * string * string * datetime)) (f : fault) (hf : hfault) : outcome * fs :=
  save_with_comments lib (stage pkg cs) f hf fs0.

Definition out_part (s : fs) (path : string) : option string :=
  match output s with Some o => lookup path o | None => None end.

End Save.

(** ** Reading the comments part back *)
Module ReadBack.
Import Injector.

Definition id_marker : string := "<w:comment w:id=" ++ dq.

Definition is_digit (c : ascii) : bool :=
  Nat.leb 48 (nat_of_ascii c) && Nat.leb (nat_of_ascii c) 57.

Fixpoint read_num (s : string) (acc : nat) : nat :=
  match s with
  | String c s' => if is_digit c then read_num s' (acc * 10 + (nat_of_ascii c - 48)) else acc
  | EmptyString => acc
  end.

(** the [w:id] of every [w:comment] start tag, in document order *)
Fixpoint comment_ids (s : string) : list nat :=
  match s with
  | EmptyString => []
  | String _ s' =>
      (if prefix id_marker s
       then [read_num (substring (String.length id_marker)
                                 (String.length s - String.length id_marker) s) 0]
       else []) ++ comment_ids s'
  end.

(** number of occurrences of [pat] in [s] *)
Fixpoint count_sub (pat s : string) : nat :=
  (if prefix pat s then 1 else 0) +
  match s with EmptyString => 0 | String _ s' => count_sub pat s' end.

End ReadBack.

(** ** [create_simple_reviewed_copy] (core_functionality.py) *)
Module Fallback.
Import Injector.

(** an entry of [comments_data]; a missing 'section', 'type', 'risk_level'
    or 'comment' key raises [KeyError] and is ruled out by the record,
    'author' is read with [.get(..., 'AI Feedback')] *)
Record fcomment := mkfc {
  fc_section : string; fc_author : option string; fc_type : string;
  fc_risk_level : string; fc_comment : string }.

(** the body elements python-docx appends; a run is (text, run.bold) *)
Inductive elem :=
| PageBreak
| Heading (text : string) (level : nat)
| Paragraph (style : option string) (runs : list (string * option bool)).

(** [doc.add_paragraph(text, style)]: no run for an empty text *)
Definition add_paragraph (text : string) (style : option string) : elem :=
  Paragraph style (if String.eqb text "" then [] else [(text, None)]).

(** [strftime("%Y-%m-%d %H:%M")] *)
Definition minute_format (d : datetime) : string :=
  zpad 4 (str_of_nat (year d)) ++ "-" ++ zpad 2 (str_of_nat (month d)) ++ "-" ++
  zpad 2 (str_of_nat (day d)) ++ " " ++ zpad 2 (str_of_nat (hour d)) ++ ":" ++
  zpad 2 (str_of_nat (minute d)).

(** [section_comments[comment['section']].append(comment)] on a defaultdict *)
Fixpoint dd_append (k : string) (c : fcomment) (d : list (string * list fcomment))
    : list (string * list fcomment) :=
  match d with
  | [] => [(k, [c])]
  | (k', cs) :: d' => if String.eqb k' k then (k', (cs ++ [c])%list) :: d' else (k', cs) :: dd_append k c d'
  end.

Definition group_by_section (cs : list fcomment) : list (string * list fcomment) :=
  fold_left (fun d c => dd_append (fc_section c) c d) cs [].

Definition bullet (c : fcomment) : elem :=
  let author := match fc_author c with Some a => a | None => "AI Feedback" end in
  Paragraph (Some "List Bullet")
    [("[" ++ author ++ "] " ++ upper (fc_type c) ++ " - " ++ fc_risk_level c ++ " Risk: ", Some true);
     (fc_comment c, None)].

Definition section_block (sc : string * list fcomment) : list elem :=
  Heading (fst sc) 2 :: map bullet (snd sc).

(** the document body after the appends; [orig] is the opened original *)
Definition create_simple_reviewed_copy (orig : list elem) (now : datetime)
    (comments_data : list fcomment) : list elem :=
  orig ++
  [PageBreak;
   Heading "Hawkeye Review Feedback Summary" 1;
   add_paragraph ("Generated on: " ++ minute_format now) None;
   add_paragraph ("Total feedback items: " ++ str_of_nat (length comments_data)) None;
   add_paragraph "" None] ++
  concat (map section_block (group_by_section comments_data)).

(** first occurrences, in order *)
Definition dedup_first (l : list string) : list string :=
  fold_left (fun acc x => if existsb (String.eqb x) acc then acc else (acc ++ [x])%list) l [].

End Fallback.

(** ** [get_hawkeye_reference] and [classify_risk_level] (core_functionality.py) *)
Module Hawkeye.

Definition HAWKEYE_SECTIONS : list (nat * string) :=
  [(1, "Initial Assessment"); (2, "Investigation Process"); (3, "Seller Classification");
   (4, "Enforcement Decision-Making"); (5, "Additional Verification (High-Risk Cases)");
   (6, "Multiple Appeals Handling"); (7, "Account Hijacking Prevention");
   (8, "Funds Management"); (9, "REs-Q Outreach Process"); (10, "Sentiment Analysis");
   (11, "Root Cause Analysis"); (12, "Preventative Actions");
   (13, "Documentation and Reporting"); (14, "Cross-Team Collaboration");
   (15, "Quality Control"); (16, "Continuous Improvement");
   (17, "Communication Standards"); (18, "Performance Metrics");
   (19, "Legal and Compliance"); (20, "New Service Launch Considerations")].

Definition keyword_mapping : list (nat * list string) :=
  [(1, ["customer experience"; "cx impact"; "customer trust"; "buyer impact"]);
   (2, ["investigation"; "sop"; "enforcement decision"; "abuse pattern"]);
   (3, ["seller classification"; "good actor"; "bad actor"; "confused actor"]);
   (4, ["enforcement"; "violation"; "warning"; "suspension"]);
   (5, ["verification"; "supplier"; "authenticity"; "documentation"]);
   (6, ["appeal"; "repeat"; "retrospective"]);
   (7, ["hijacking"; "security"; "authentication"; "secondary user"]);
   (8, ["funds"; "disbursement"; "financial"]);
   (9, ["outreach"; "communication"; "clarification"]);
   (10, ["sentiment"; "escalation"; "health safety"; "legal threat"]);
   (11, ["root cause"; "process gap"; "system failure"]);
   (12, ["preventative"; "solution"; "improvement"; "mitigation"]);
   (13, ["documentation"; "reporting"; "background"]);
   (14, ["cross-team"; "collaboration"; "engagement"]);
   (15, ["quality"; "audit"; "review"; "performance"]);
   (16, ["continuous improvement"; "training"; "update"]);
   (17, ["communication standard"; "messaging"; "clarity"]);
   (18, ["metrics"; "tracking"; "measurement"]);
   (19, ["legal"; "compliance"; "regulation"]);
   (20, ["launch"; "pilot"; "rollback"])].

Fixpoint assoc_nat {V} (n : nat) (d : list (nat * V)) : option V :=
  match d with
  | [] => None
  | (k, v) :: d' => if Nat.eqb k n then Some v else assoc_nat n d'
  end.

(** [HAWKEYE_SECTIONS[section_num]]; every key of [keyword_mapping] is a
    key of [HAWKEYE_SECTIONS], so the [KeyError] branch is never taken *)
Definition section_name (n : nat) : string :=
  match assoc_nat n HAWKEYE_SECTIONS with Some s => s | None => "" end.

Record reference := mkref { number : nat; name : string }.

(** [for keyword in keywords: if keyword in content_lower or keyword in
    category_lower: ...; break] *)
Definition section_matches (content_lower category_lower : string) (keywords : list string) : bool :=
  existsb (fun keyword => contains keyword content_lower || contains keyword category_lower)
          keywords.

Definition get_hawkeye_reference (category content : string) : list reference :=
  let content_lower := lower content in
  let category_lower := lower category in
  let references :=
    fold_left (fun references entry =>
                 if section_matches content_lower category_lower (snd entry)
                 then (references ++ [mkref (fst entry) (section_name (fst entry))])%list
                 else references)
              keyword_mapping [] in
  firstn 3 references.

Definition high_risk_indicators : list string :=
  ["counterfeit"; "fraud"; "manipulation"; "multiple violation";
   "immediate action"; "legal"; "health safety"; "bad actor"].

Definition medium_risk_indicators : list string :=
  ["pattern"; "violation"; "enforcement"; "remediation"; "correction"; "warning"].

(** a feedback item dict as the analysis step sees it: the string values
    of 'description', 'category', 'hawkeye_refs' and 'risk_level' when the
    key is present; its other keys are never read or written here *)
Record fitem := mkfi {
  fi_description : option string;
  fi_category : option string;
  fi_refs : option (list nat);
  fi_risk : option string }.

Definition get_str (o : option string) : string :=
  match o with Some s => s | None => "" end.

Definition classify_risk_level (item : fitem) : string :=
  let content_lower := lower (get_str (fi_description item) ++ " " ++ get_str (fi_category item)) in
  if existsb (fun indicator => contains indicator content_lower) high_risk_indicators then "High"
  else if existsb (fun indicator => contains indicator content_lower) medium_risk_indicators
  then "Medium"
  else "Low".

(** one iteration of the loop over [result.get('feedback_items', [])] in
    [analyze_section_with_ai] *)
Definition enrich_item (item : fitem) : fitem :=
  let item1 :=
    match fi_refs item with
    | None =>
        mkfi (fi_description item) (fi_category item)
             (Some (map number (get_hawkeye_reference (get_str (fi_category item))
                                                      (get_str (fi_description item)))))
             (fi_risk item)
    | Some _ => item
    end in
  match fi_risk item1 with
  | None => mkfi (fi_description item1) (fi_category item1) (fi_refs item1)
                 (Some (classify_risk_level item1))
  | Some _ => item1
  end.

Definition enrich_items (items : list fitem) : list fitem := map enrich_item items.

End Hawkeye.

(** ** [create_reviewed_document_with_proper_comments] (core_functionality.py):
    the comment path, and the summary copy when it does not succeed *)
Module Review.
Import Injector Save Fallback.

(** an entry of [comments_data] as the two writers read it: 'paragraph_index'
    and 'comment' for the comment path, 'section', 'type', 'risk_level' and
    'comment' for the summary copy; 'author' through [.get(..., 'AI Feedback')] *)
Record rcomment := mkrc {
  rc_paragraph_index : Z; rc_section : string; rc_author : option string;
  rc_type : string; rc_risk_level : string; rc_comment : string }.

Definition author_of (c : rcomment) : string :=
  match rc_author c with Some a => a | None => "AI Feedback" end.

Definition to_fcomment (c : rcomment) : fcomment :=
  mkfc (rc_section c) (rc_author c) (rc_type c) (rc_risk_level c) (rc_comment c).

(** the arguments of the [i]-th [add_comment] call; [clock i] is the
    value [datetime.now()] returns at that call *)
Definition to_staged (clock : nat -> datetime) (ic : nat * rcomment)
    : Z * string * string * datetime :=
  (rc_paragraph_index (snd ic), rc_comment (snd ic), author_of (snd ic), clock (fst ic)).

Inductive review_result :=
| ProperCopy (archive : package)   (* [output_path] of the comment path, as written *)
| SimpleCopy (body : list elem)    (* [output_path] of the summary copy, its body *)
| NoCopy.                          (* [None] *)

(** [create_simple_reviewed_copy] with its [try]: [Document(original_doc_path)]
    raises unless python-docx loads the file; [save_ok] tells whether
    [doc.save] succeeds *)
Definition simple_copy (lib : docx_lib) (pkg : option package) (orig : list elem)
    (now : datetime) (comments_data : list fcomment) (save_ok : bool) : review_result :=
  match docx_open lib pkg with
  | Some _ => if save_ok then SimpleCopy (create_simple_reviewed_copy orig now comments_data)
              else NoCopy
  | None => NoCopy
  end.

(** [pkg] is the file at [original_doc_path] and [orig] the body python-docx
    reads from it; calls [0 .. n-1] of [datetime.now()] stamp the comments,
    call [n] names the output, calls [n+1] and [n+2] are those of the summary
    copy; an exception raised by [save_with_comments] is caught by the
    outer [except] *)
Definition create_reviewed_document_with_proper_comments (lib : docx_lib)
    (pkg : option package) (orig : list elem) (clock : nat -> datetime)
    (comments_data : list rcomment) (f : fault) (hf : hfault) (save_ok : bool)
    : review_result :=
  let n := length comments_data in
  let fallback :=
    simple_copy lib pkg orig (clock (n + 2)) (map to_fcomment comments_data) save_ok in
  match inject lib pkg (map (to_staged clock) (combine (seq 0 n) comments_data)) f hf with
  | (Returned true, s) => match output s with Some o => ProperCopy o | None => NoCopy end
  | _ => fallback
  end.

End Review.

(** ** The session routes of app.py: [upload_file], [accept_feedback] and
    [complete_review], over the module-level [sessions] dict *)
Module AppSessions.
Import Injector Fallback.

(** a parsed JSON value; numbers with a fraction or an exponent are not
    modelled *)
#[warnings="-register-all"]
Inductive json :=
| JNull
| JBool (b : bool)
| JInt (z : Z)
| JStr (s : string)
| JList (l : list json)
| JObj (kvs : list (string * json)).

Fixpoint dict_get {V} (k : string) (d : list (string * V)) : option V :=
  match d with
  | [] => None
  | (k', v) :: d' => if String.eqb k' k then Some v else dict_get k d'
  end.

(** [json.loads] keeps the last of repeated keys *)
Definition obj_get (k : string) (kvs : list (string * json)) : option json :=
  dict_get k (rev kvs).

(** [data.get(k)] *)
Definition get_or_none (k : string) (kvs : list (string * json)) : json :=
  match obj_get k kvs with Some v => v | None => JNull end.

Definition hashable (j : json) : bool :=
  match j with JList _ | JObj _ => false | _ => true end.

(** [bool] is a subclass of [int]: [True == 1] and [hash(True) == hash(1)] *)
Definition num_of (j : json) : option Z :=
  match j with
  | JBool b => Some (if b then 1%Z else 0%Z)
  | JInt z => Some z
  | _ => None
  end.

(** [==] between two hashable keys *)
Definition py_key_eq (a b : json) : bool :=
  match a, b with
  | JNull, JNull => true
  | JStr x, JStr y => String.eqb x y
  | _, _ => match num_of a, num_of b with
            | Some x, Some y => Z.eqb x y
            | _, _ => false
            end
  end.

Fixpoint jd_get (k : json) (d : list (json * list json)) : option (list json) :=
  match d with
  | [] => None
  | (k', vs) :: d' => if py_key_eq k' k then Some vs else jd_get k d'
  end.

(** [if k not in d: d[k] = []] then [d[k].append(v)]; an existing equal
    key keeps its first spelling *)
Fixpoint jd_append (k v : json) (d : list (json * list json)) : list (json * list json) :=
  match d with
  | [] => [(k, [v])]
  | (k', vs) :: d' =>
      if py_key_eq k' k then (k', (vs ++ [v])%list) :: d' else (k', vs) :: jd_append k v d'
  end.

Record session := mksess {
  filename : string;
  filepath : string;
  sections : list (string * string);
  accepted_feedback : list (json * list json) }.

Definition store := list (string * session).

Inductive response :=
| JsonResp (code : nat) (body : list (string * json))   (* [jsonify(...)], status *)
| FileResp (body : list elem)                           (* [send_file] of the saved summary *)
| Crash (exn : string).                                 (* an uncaught exception: Flask's 500 page *)

(** [str.endswith] *)
Definition ends_with (suffix s : string) : bool :=
  let n := String.length s in
  let m := String.length suffix in
  Nat.leb m n && String.eqb (substring (n - m) m s) suffix.

(** [file] is [None] when 'file' is not in [request.files], else the
    client's file name and what [Document(filepath)] gives: the paragraphs,
    or the text of the exception it raises; [session_id] is the fresh
    [str(uuid.uuid4())] *)
Definition upload_file (secure_filename : string -> string)
    (file : option (string * (list para + string))) (session_id : string) (st : store)
    : response * store :=
  match file with
  | None => (JsonResp 400 [("error", JStr "No file uploaded")], st)
  | Some (client_name, parsed) =>
      if negb (ends_with ".docx" client_name)
      then (JsonResp 400 [("error", JStr "Please upload a .docx file")], st)
      else
        let filename := secure_filename client_name in
        match parsed with
        | inr e => (JsonResp 500 [("error", JStr e)], st)
        | inl ps =>
            let secs := App.extract_sections ps in
            (JsonResp 200 [("session_id", JStr session_id);
                           ("sections", JList (map (fun kv => JStr (fst kv)) secs));
                           ("message", JStr ("Loaded " ++ str_of_nat (length secs) ++ " sections"))],
             dict_set session_id (mksess filename ("/tmp/" ++ filename) secs []) st)
        end
  end.

(** [data] is [request.json] *)
Definition accept_feedback (data : json) (st : store) : response * store :=
  match data with
  | JObj kvs =>
      let session_id := get_or_none "session_id" kvs in
      let section_name := get_or_none "section_name" kvs in
      let feedback_item := get_or_none "feedback_item" kvs in
      if negb (hashable session_id) then (Crash "TypeError", st)
      else
        match session_id with
        | JStr sid =>
            match dict_get sid st with
            | None => (JsonResp 404 [("error", JStr "Session not found")], st)
            | Some session =>
                if negb (hashable section_name) then (Crash "TypeError", st)
                else
                  (JsonResp 200 [("message", JStr "Feedback accepted")],
                   dict_set sid
                     (mksess (filename session) (filepath session) (sections session)
                             (jd_append section_name feedback_item (accepted_feedback session)))
                     st)
            end
        | _ => (JsonResp 404 [("error", JStr "Session not found")], st)
        end
  | _ => (Crash "AttributeError", st)
  end.

Definition z_str (z : Z) : string :=
  if Z.ltb z 0 then "-" ++ str_of_nat (Z.to_nat (- z)) else str_of_nat (Z.to_nat z).

(** [str(k)] of a key of [accepted_feedback]; unhashable keys never get there *)
Definition py_str_key (k : json) : string :=
  match k with
  | JNull => "None"
  | JBool true => "True"
  | JBool false => "False"
  | JInt z => z_str z
  | JStr s => s
  | _ => ""
  end.

Definition py_type_name (j : json) : string :=
  match j with
  | JNull => "NoneType" | JBool _ => "bool" | JInt _ => "int" | JStr _ => "str"
  | JList _ => "list" | JObj _ => "dict"
  end.

(** [item.get('index', 0) + 1], or the text of the exception it raises *)
Definition analysis_point (item : json) : Z + string :=
  match item with
  | JObj kvs =>
      match obj_get "index" kvs with
      | None => inl 1%Z
      | Some (JInt z) => inl (z + 1)%Z
      | Some (JBool b) => inl ((if b then 1 else 0) + 1)%Z
      | Some (JStr _) => inr ("can only concatenate str (not " ++ dq ++ "int" ++ dq ++ ") to str")
      | Some (JList _) => inr ("can only concatenate list (not " ++ dq ++ "int" ++ dq ++ ") to list")
      | Some v => inr ("unsupported operand type(s) for +: '" ++ py_type_name v ++ "' and 'int'")
      end
  | _ => inr ("'" ++ py_type_name item ++ "' object has no attribute 'get'")
  end.

Fixpoint render_items (items : list json) : list elem + string :=
  match items with
  | [] => inl []
  | item :: rest =>
      match analysis_point item with
      | inr e => inr e
      | inl n =>
          match render_items rest with
          | inl ps => inl (add_paragraph ("Feedback accepted for analysis point " ++ z_str n) None :: ps)
          | inr e => inr e
          end
      end
  end.

Fixpoint render_sections (acc : list (json * list json)) : list elem + string :=
  match acc with
  | [] => inl []
  | (section_name, feedback_items) :: rest =>
      match render_items feedback_items with
      | inr e => inr e
      | inl ps =>
          match render_sections rest with
          | inl qs => inl (Heading ("Section: " ++ py_str_key section_name) 1 :: ps ++ qs)%list
          | inr e => inr e
          end
      end
  end.

(** [now] is [datetime.now()] at the 'Generated on' line; [save_error] is
    what [doc.save(output_path)] does: [None] when it succeeds, [Some e] when
    it raises with [str(e) = e] (e.g. a file name too long for /tmp) *)
Definition complete_review (session_id : string) (now : datetime) (save_error : option string)
    (st : store) : response :=
  match dict_get session_id st with
  | None => JsonResp 404 [("error", JStr "Session not found")]
  | Some session =>
      match render_sections (accepted_feedback session) with
      | inr e => JsonResp 500 [("error", JStr e)]
      | inl body =>
          match save_error with
          | Some e => JsonResp 500 [("error", JStr e)]
          | None =>
              FileResp ([Heading "CT Review Summary" 0;
                         add_paragraph ("Generated on: " ++ minute_format now) None] ++ body)
          end
      end
  end.

End AppSessions.

(** ** Predicates of the statements and concrete inputs *)
Module Spec.
Import Core Injector Save Fallback.

(** what the extractor may store: a name outside the denylist, a non-empty body *)
Definition stored_ok (kv : string * string) : Prop :=
  is_excluded (fst kv) = false /\ snd kv <> "".

Definition state_ok (s : xstate) : Prop :=
  Forall (fun t => t <> "") (current_content s) /\
  (forall kv, In kv (sections s) -> stored_ok kv).

Definition add_step (w : wdoc) (c : Z * string * string * datetime) : wdoc :=
  match c with (i, t, a, d) => add_comment w i t a d end.

(** the calls that fail before the output archive is created *)
Definition early_fault (f : fault) : bool :=
  match f with
  | FailSaveTemp _ | FailMakedirs | FailExtract | FailWriteComments | FailUpdateRels
  | FailZipOpen => true
  | _ => false
  end.

Definition forget_index (c : comment) : nat * string * string * datetime :=
  (c_id c, c_text c, c_author c, c_date c).

Definition of_section (s : string) (c : fcomment) : bool := String.eqb (fc_section c) s.

(** the defaultdict, seen as sections in first-occurrence order, each with
    its comments in input order *)
Definition grouped (l : list fcomment) : list (string * list fcomment) :=
  map (fun s => (s, filter (of_section s) l)) (dedup_first (map fc_section l)).

End Spec.

(** ** Predicates of the further statements *)
Module SpecX.

Definition header_name (p : para) : string := rstrip_colon (strip (p_text p)).

(** the test of the header branch of [App.step] *)
Definition app_header (p : para) : bool :=
  let text := strip (p_text p) in
  is_bold (p_runs p) && Nat.ltb (String.length text) 100 && (ends_with_colon text || isupper text).

Definition stripped_texts (ps : list para) : list string :=
  filter (fun t => negb (String.eqb t "")) (map (fun p => strip (p_text p)) ps).

Definition from_core_header (done : list para) (k : string) : Prop :=
  exists p, In p done /\ Core.is_section_header p = true /\ k = header_name p.

Definition from_app_header (done : list para) (k : string) : Prop :=
  exists p, In p done /\ app_header p = true /\ k = header_name p.

(** one half of [_update_document_relationships]: the manifest at [path]
    gets [entry] before its closing tag [pat] unless it names comments.xml *)
Definition manifest_step (path pat entry : string) (files : Injector.package) : Injector.package :=
  match Injector.lookup path files with
  | Some c =>
      if negb (contains "comments.xml" c)
      then dict_set path (Injector.replace pat (entry ++ pat) c) files
      else files
  | None => files
  end.

(** the 'List Bullet' paragraphs of a document body *)
Definition bullets (body : list Fallback.elem) : nat :=
  length (filter (fun e => match e with
                           | Fallback.Paragraph (Some st) _ => String.eqb st "List Bullet"
                           | _ => false
                           end) body).

(** the texts of the headings of a given level, in order *)
Definition headings_at (level : nat) (body : list Fallback.elem) : list string :=
  flat_map (fun e => match e with
                     | Fallback.Heading t l => if Nat.eqb l level then [t] else []
                     | _ => []
                     end) body.

(** an accepted feedback item [complete_review] can render: a JSON object
    whose 'index', if present, is an integer or a boolean *)
Definition item_ok (j : AppSessions.json) : Prop :=
  exists kvs, j = AppSessions.JObj kvs /\
    match AppSessions.obj_get "index" kvs with
    | None | Some (AppSessions.JInt _) | Some (AppSessions.JBool _) => True
    | Some _ => False
    end.

End SpecX.

Module Inputs.
Import Injector Save Fallback.

Definition bold_para (t : string) : para := mkpara t [Some true].
Definition plain_para (t : string) : para := mkpara t [None].

Definition logs_doc : list para := [bold_para "LOGS:"; plain_para "raw log line"].

Definition preamble_doc : list para :=
  [plain_para "Intro text."; bold_para "BACKGROUND"; plain_para "We found X."].

Definition empty_header_doc : list para :=
  [bold_para "BACKGROUND"; plain_para "We found X."; bold_para "TIMELINE:";
   plain_para "  "; bold_para "ROOT CAUSE:"; plain_para "Y happened."].

Definition demo_ct : string :=
  "<Types><Default Extension=" ++ dq ++ "xml" ++ dq ++ "/></Types>".
Definition demo_rels : string :=
  "<Relationships><Relationship Id=" ++ dq ++ "rId1" ++ dq ++ "/></Relationships>".
(** a bare archive for the manifest edits; python-docx refuses it *)
Definition demo_pkg : package :=
  [(content_types_path, demo_ct); ("word/document.xml", "<w:document/>"); (rels_path, demo_rels)].
Definition demo_date : datetime := mkdt 2024 3 5 9 7 2 1234.

(** *** Archives python-docx loads, and what [doc.save] writes for them *)

Definition attr (k v : string) : string := " " ++ k ++ "=" ++ dq ++ v ++ dq.

Definition CT_NS : string := "http://schemas.openxmlformats.org/package/2006/content-types".
Definition RELS_NS : string := "http://schemas.openxmlformats.org/package/2006/relationships".
Definition RT_OFFICE_DOCUMENT : string :=
  "http://schemas.openxmlformats.org/officeDocument/2006/relationships/officeDocument".
Definition RT_STYLES : string :=
  "http://schemas.openxmlformats.org/officeDocument/2006/relationships/styles".
Definition CT_RELS : string := "application/vnd.openxmlformats-package.relationships+xml".
Definition CT_XML : string := "application/xml".
Definition CT_MAIN : string :=
  "application/vnd.openxmlformats-officedocument.wordprocessingml.document.main+xml".
Definition CT_STYLES : string :=
  "application/vnd.openxmlformats-officedocument.wordprocessingml.styles+xml".

(** the XML declaration a word processor writes, and the one lxml writes
    when python-docx serializes a part *)
Definition decl_in : string :=
  "<?xml" ++ attr "version" "1.0" ++ attr "encoding" "UTF-8" ++ attr "standalone" "yes" ++
  "?>" ++ nl.
Definition decl_lxml : string := "<?xml version='1.0' encoding='UTF-8' standalone='yes'?>" ++ nl.

Definition types_xml (overrides : list (string * string)) : string :=
  "<Types" ++ attr "xmlns" CT_NS ++ ">" ++
  "<Default" ++ attr "Extension" "rels" ++ attr "ContentType" CT_RELS ++ "/>" ++
  "<Default" ++ attr "Extension" "xml" ++ attr "ContentType" CT_XML ++ "/>" ++
  String.concat "" (map (fun o => "<Override" ++ attr "PartName" (fst o) ++
                                  attr "ContentType" (snd o) ++ "/>") overrides) ++
  "</Types>".

Definition rels_xml (rels : list (string * string * string)) : string :=
  "<Relationships" ++ attr "xmlns" RELS_NS ++ ">" ++
  String.concat "" (map (fun r => match r with
                                  | (i, t, g) => "<Relationship" ++ attr "Id" i ++
                                                 attr "Type" t ++ attr "Target" g ++ "/>"
                                  end) rels) ++
  "</Relationships>".

Definition document_xml : string :=
  "<w:document" ++ attr "xmlns:w" W_NS ++
  "><w:body><w:p><w:r><w:t>Intro text.</w:t></w:r></w:p></w:body></w:document>".

Definition styles_xml : string := "<w:styles" ++ attr "xmlns:w" W_NS ++ "/>".

(** a one-paragraph document with a styles part *)
Definition min_docx : package :=
  [(content_types_path,
    decl_in ++ types_xml [("/word/document.xml", CT_MAIN); ("/word/styles.xml", CT_STYLES)]);
   ("_rels/.rels", decl_in ++ rels_xml [("rId1", RT_OFFICE_DOCUMENT, "word/document.xml")]);
   ("word/document.xml", decl_in ++ document_xml);
   (rels_path, decl_in ++ rels_xml [("rId1", RT_STYLES, "styles.xml")]);
   ("word/styles.xml", decl_in ++ styles_xml)].

(** the package python-docx writes for it: the manifest and the .rels
    parts regenerated, each part serialized by lxml, in the order of
    [PackageWriter] (manifest, package relationships, then each part
    followed by its relationships) *)
Definition min_docx_saved : package :=
  [(content_types_path,
    decl_lxml ++ types_xml [("/word/document.xml", CT_MAIN); ("/word/styles.xml", CT_STYLES)]);
   ("_rels/.rels", decl_lxml ++ rels_xml [("rId1", RT_OFFICE_DOCUMENT, "word/document.xml")]);
   ("word/document.xml", decl_lxml ++ document_xml);
   (rels_path, decl_lxml ++ rels_xml [("rId1", RT_STYLES, "styles.xml")]);
   ("word/styles.xml", decl_lxml ++ styles_xml)].

(** the same document without the styles part: its main part has no
    relationships, and the archive no [word/_rels/document.xml.rels] *)
Definition min_docx_norels : package :=
  [(content_types_path, decl_in ++ types_xml [("/word/document.xml", CT_MAIN)]);
   ("_rels/.rels", decl_in ++ rels_xml [("rId1", RT_OFFICE_DOCUMENT, "word/document.xml")]);
   ("word/document.xml", decl_in ++ document_xml)].

(** python-docx writes the relationships of a part only when it has some *)
Definition min_docx_norels_saved : package :=
  [(content_types_path, decl_lxml ++ types_xml [("/word/document.xml", CT_MAIN)]);
   ("_rels/.rels", decl_lxml ++ rels_xml [("rId1", RT_OFFICE_DOCUMENT, "word/document.xml")]);
   ("word/document.xml", decl_lxml ++ document_xml)].

Fixpoint package_eqb (p q : package) : bool :=
  match p, q with
  | [], [] => true
  | (k1, v1) :: p', (k2, v2) :: q' => String.eqb k1 k2 && String.eqb v1 v2 && package_eqb p' q'
  | _, _ => false
  end.

(** python-docx on the archives the concrete runs below load: the two
    above, and [demo_pkg], which it refuses (no package relationships, a
    manifest outside the content-types namespace) *)
Definition pydocx_known : docx_lib :=
  fun p => if package_eqb p min_docx then Some min_docx_saved
           else if package_eqb p min_docx_norels then Some min_docx_norels_saved
           else None.

(** review text that happens to contain comment markup *)
Definition markup_text : string :=
  "A</w:t></w:r></w:p></w:comment><w:comment w:id=" ++ dq ++ "99" ++ dq ++
  "><w:p><w:r><w:t>B".

Definition demo_comment (idx : Z) : comment :=
  mkcomment 1 idx "Add detail." "AI Feedback" demo_date.

Definition c1 : fcomment := mkfc "Background" None "critical" "High" "Missing dates.".
Definition c2 : fcomment := mkfc "Background" (Some "Reviewer") "suggestion" "Low" "Name the team.".
Definition c3 : fcomment := mkfc "Root Cause" None "important" "Medium" "Give the cause.".

End Inputs.
Import Inputs.

Example spec_example :
  Core.extract_document_sections_from_docx
    [bold_para "BACKGROUND"; plain_para "We found X.";
     bold_para "ROOT CAUSE:"; plain_para "Y happened."]
  = [("BACKGROUND", "We found X."); ("ROOT CAUSE", "Y happened.")].
Proof. vm_compute. reflexivity. Qed.

(** ** Facts about the extractors *)

Module ExtractFacts.
Import Core Spec.

Lemma append_empty_l (x y : string) : x ++ y = "" -> x = "".
Proof. destruct x; simpl; [auto | discriminate]. Qed.

Lemma join_head_nonempty (sep x : string) (l : list string) :
  x <> "" -> join sep (x :: l) <> "".
Proof.
  intros Hx. destruct l as [|y l]; simpl; [exact Hx|].
  intros E. apply Hx. exact (append_empty_l _ _ E).
Qed.

Lemma dict_set_In {V} (k : string) (v : V) d k' v' :
  In (k', v') (dict_set k v d) -> (k' = k /\ v' = v) \/ In (k', v') d.
Proof.
  induction d as [|[k0 v0] d IH]; simpl.
  - intros [E|[]]. inversion E; subst; auto.
  - destruct (String.eqb_spec k0 k) as [->|Hne]; simpl.
    + intros [E|H]; [inversion E; subst; auto | auto].
    + intros [E|H]; [auto|]. destruct (IH H) as [?|?]; auto.
Qed.

Lemma close_section_ok cur content secs :
  Forall (fun t => t <> "") content ->
  (forall kv, In kv secs -> stored_ok kv) ->
  forall kv, In kv (close_section cur content secs) -> stored_ok kv.
Proof.
  intros Hc Hs [k v]. unfold close_section.
  destruct cur as [name|]; [|apply Hs].
  destruct content as [|t ts]; [apply Hs|].
  destruct (String.eqb name ""); [apply Hs|].
  destruct (is_excluded name) eqn:Ex; [apply Hs|].
  intros Hin. destruct (dict_set_In _ _ _ _ _ Hin) as [[-> ->]|H]; [|auto].
  split; [exact Ex|]. inversion Hc; subst. exact (join_head_nonempty _ _ _ H1).
Qed.

Lemma step_ok s p : state_ok s -> state_ok (step s p).
Proof.
  intros [Hc Hs]. unfold step.
  destruct (is_section_header p).
  - split; [constructor|]. simpl. now apply close_section_ok.
  - destruct (String.eqb_spec (strip (p_text p)) "") as [_|Hne]; [split; auto|].
    split; simpl; [|exact Hs]. apply Forall_app; auto.
Qed.

Lemma fold_step_ok ps s : state_ok s -> state_ok (fold_left step ps s).
Proof.
  revert s; induction ps as [|p ps IH]; simpl; auto.
  intros s H. apply IH, step_ok, H.
Qed.

Lemma header_pass_ok ps : forall kv, In kv (header_pass ps) -> stored_ok kv.
Proof.
  unfold header_pass.
  assert (H : state_ok (fold_left step ps init)).
  { apply fold_step_ok. split; [constructor | intros _ []]. }
  destruct H as [Hc Hs]. now apply close_section_ok.
Qed.

Lemma blank_not_header p : strip (p_text p) = "" -> is_section_header p = false.
Proof.
  intros Hb. unfold is_section_header. rewrite Hb. simpl.
  now rewrite andb_false_r.
Qed.

Lemma step_blank s p : strip (p_text p) = "" -> step s p = s.
Proof.
  intros Hb. unfold step. rewrite (blank_not_header p Hb), Hb. reflexivity.
Qed.

Lemma fold_blank s mid :
  Forall (fun p => strip (p_text p) = "") mid -> fold_left step mid s = s.
Proof.
  intros H; revert s; induction H as [|p mid Hp _ IH]; simpl; auto.
  intros s. rewrite step_blank by exact Hp. apply IH.
Qed.

Lemma step_header s p :
  is_section_header p = true ->
  step s p = mkx (Some (rstrip_colon (strip (p_text p)))) []
                 (close_section (current_section s) (current_content s) (sections s)).
Proof. intros H. unfold step. now rewrite H. Qed.

Lemma strip_empty : strip "" = "".
Proof. reflexivity. Qed.

(** a header that is followed only by blank blocks up to the next header
    (or the end) leaves the header pass as if it were not there *)
Lemma header_pass_drop_empty pre h mid post :
  is_section_header h = true ->
  Forall (fun p => strip (p_text p) = "") mid ->
  (post = [] \/ exists h' post', post = h' :: post' /\ is_section_header h' = true) ->
  header_pass (pre ++ h :: mid ++ post) = header_pass (pre ++ mid ++ post).
Proof.
  intros Hh Hmid Hpost. unfold header_pass.
  rewrite !fold_left_app. simpl.
  set (s := fold_left step pre init).
  rewrite !fold_left_app.
  rewrite !(fold_blank _ mid Hmid).
  rewrite (step_header s h Hh).
  destruct Hpost as [->|[h' [post' [-> Hh']]]]; simpl; [reflexivity|].
  rewrite !(step_header _ h' Hh'). reflexivity.
Qed.

End ExtractFacts.

Lemma is_bold_half (runs : list run) :
  2 * bold_count runs <= length runs -> is_bold runs = false.
Proof.
  intros H. destruct runs as [|r rs]; [reflexivity|].
  unfold is_bold. apply negb_false_iff, Qle_bool_iff.
  unfold Qle; simpl. rewrite !Pos.mul_1_r, Zpos_P_of_succ_nat. simpl in H. lia.
Qed.

Lemma extract_of_nonempty_pass (ps : list para) :
  Core.header_pass ps <> [] ->
  Core.extract_document_sections_from_docx ps = Core.header_pass ps.
Proof.
  unfold Core.extract_document_sections_from_docx.
  destruct (Core.header_pass ps); [congruence | reflexivity].
Qed.

(** ** Claims about section extraction *)

(** C1 (as amended): no key of the extraction result contains an excluded
    fragment case-insensitively; but when the header-driven pass stores no
    section (for instance because the only section found was excluded),
    the result is the single "Main Content" section made of the text of
    every non-blank block, the excluded content included. *)
Theorem extract_exclusion (ps : list para) :
  (forall k v, In (k, v) (Core.extract_document_sections_from_docx ps) ->
               Core.is_excluded k = false) /\
  (Core.header_pass ps = [] ->
   Core.extract_document_sections_from_docx ps =
   [("Main Content",
     join nl (map p_text (filter (fun p => negb (String.eqb (strip (p_text p)) "")) ps)))]).
Proof.
  split.
  - intros k v. unfold Core.extract_document_sections_from_docx.
    destruct (Core.header_pass ps) eqn:E.
    + intros [Hkv|[]]. inversion Hkv; subst. reflexivity.
    + intros Hin. rewrite <- E in Hin.
      exact (proj1 (ExtractFacts.header_pass_ok ps (k, v) Hin)).
  - intros E. unfold Core.extract_document_sections_from_docx. rewrite E. reflexivity.
Qed.

Lemma extract_exclusion_witness :
  Core.header_pass logs_doc = [] /\
  Core.extract_document_sections_from_docx logs_doc =
  [("Main Content",
    join nl (map p_text (filter (fun p => negb (String.eqb (strip (p_text p)) "")) logs_doc)))].
Proof.
  split; [vm_compute; reflexivity|].
  apply (proj2 (extract_exclusion logs_doc)). vm_compute. reflexivity.
Defined.

(** C1 counterexample: the excluded "LOGS" section is the only one found,
    and its content comes back under "Main Content". *)
Lemma extract_exclusion_cex :
  Core.is_excluded "LOGS" = true /\
  Core.header_pass logs_doc = [] /\
  Core.extract_document_sections_from_docx logs_doc =
    [("Main Content", "LOGS:" ++ nl ++ "raw log line")] /\
  Core.extract_document_sections_from_docx logs_doc <> [].
Proof. vm_compute. repeat split; discriminate. Qed.

(** C4 (as amended): if some block has non-blank text, the result has a
    section with a non-empty body; if every block is blank, the result is
    the single section "Main Content" with an empty body. *)
Theorem extract_totality (ps : list para) :
  (Exists (fun p => strip (p_text p) <> "") ps ->
   exists name body,
     In (name, body) (Core.extract_document_sections_from_docx ps) /\ body <> "") /\
  (Forall (fun p => strip (p_text p) = "") ps ->
   Core.extract_document_sections_from_docx ps = [("Main Content", "")]).
Proof.
  split.
  - intros Hex. destruct (Core.header_pass ps) as [|[k v] rest] eqn:E.
    + unfold Core.extract_document_sections_from_docx. rewrite E.
      exists "Main Content". eexists. split; [left; reflexivity|].
      clear E. induction Hex as [p ps Hp|p ps _ IH]; cbn [filter].
      * assert (Ht : p_text p <> "") by (intros Ht; apply Hp; rewrite Ht; reflexivity).
        destruct (String.eqb_spec (strip (p_text p)) "") as [Hb|_]; [contradiction|].
        exact (ExtractFacts.join_head_nonempty nl (p_text p) _ Ht).
      * destruct (String.eqb (strip (p_text p)) "") eqn:Eb; [exact IH|].
        assert (Ht : p_text p <> "") by (intros Ht; rewrite Ht in Eb; discriminate).
        exact (ExtractFacts.join_head_nonempty nl (p_text p) _ Ht).
    + exists k, v. rewrite extract_of_nonempty_pass by (rewrite E; discriminate).
      rewrite E. split; [left; reflexivity|].
      assert (Hin : In (k, v) (Core.header_pass ps)) by (rewrite E; left; reflexivity).
      exact (proj2 (ExtractFacts.header_pass_ok ps _ Hin)).
  - intros Hall. unfold Core.extract_document_sections_from_docx, Core.header_pass.
    rewrite ExtractFacts.fold_blank by exact Hall. simpl.
    unfold Core.fallback.
    assert (Hf : filter (fun p => negb (String.eqb (strip (p_text p)) "")) ps = []).
    { induction Hall as [|p ps Hp _ IH]; simpl; auto. rewrite Hp. simpl. exact IH. }
    rewrite Hf. reflexivity.
Qed.

Lemma extract_totality_witness :
  Exists (fun p => strip (p_text p) <> "") logs_doc /\
  (exists name body,
     In (name, body) (Core.extract_document_sections_from_docx logs_doc) /\ body <> "") /\
  Forall (fun p => strip (p_text p) = "") [mkpara " " []] /\
  Core.extract_document_sections_from_docx [mkpara " " []] = [("Main Content", "")].
Proof.
  assert (H1 : Exists (fun p => strip (p_text p) <> "") logs_doc).
  { constructor. vm_compute. discriminate. }
  assert (H2 : Forall (fun p => strip (p_text p) = "") [mkpara " " []]).
  { constructor; [vm_compute; reflexivity | constructor]. }
  split; [exact H1|]. split; [exact (proj1 (extract_totality logs_doc) H1)|].
  split; [exact H2|]. exact (proj2 (extract_totality [mkpara " " []]) H2).
Defined.

(** C4 counterexample: a one-block document whose only block is empty. *)
Lemma extract_totality_cex :
  Core.extract_document_sections_from_docx [mkpara "" []] = [("Main Content", "")].
Proof. vm_compute. reflexivity. Qed.

(** C5 (code bug): the core extractor starts with [current_section = None],
    so text before the first header is never stored, while the sibling
    [extract_sections] of app.py starts at "Main Content" and keeps it. *)
Theorem preamble_dropped_by_core :
  Core.extract_document_sections_from_docx preamble_doc = [("BACKGROUND", "We found X.")] /\
  App.extract_sections preamble_doc =
    [("Main Content", "Intro text."); ("BACKGROUND", "We found X.")].
Proof. split; vm_compute; reflexivity. Qed.

(** C8: a block with half or fewer of its runs bold, or with no runs at
    all, is never a header: both extractors treat it as body text. *)
Theorem header_threshold (p : para) :
  (2 * bold_count (p_runs p) <= length (p_runs p) \/ p_runs p = []) ->
  Core.is_section_header p = false /\
  (forall s, Core.step s p =
     if String.eqb (strip (p_text p)) "" then s
     else Core.mkx (Core.current_section s) (Core.current_content s ++ [strip (p_text p)])
                   (Core.sections s)) /\
  (forall s, App.step s p =
     if String.eqb (strip (p_text p)) "" then s
     else App.mka (App.current_section s) (App.content s ++ [strip (p_text p)])
                  (App.sections s)).
Proof.
  intros H.
  assert (Hb : is_bold (p_runs p) = false).
  { destruct H as [H|H]; [now apply is_bold_half | now rewrite H]. }
  assert (Hh : Core.is_section_header p = false).
  { unfold Core.is_section_header. now rewrite Hb. }
  split; [exact Hh|]. split.
  - intros s. unfold Core.step. now rewrite Hh.
  - intros s. unfold App.step. rewrite Hb. reflexivity.
Qed.

Lemma header_threshold_witness :
  let p := mkpara "ROOT CAUSE:" [Some true; None] in
  (2 * bold_count (p_runs p) <= length (p_runs p) \/ p_runs p = []) /\
  Core.is_section_header p = false.
Proof.
  simpl. assert (H : 2 * 1 <= 2 \/ [Some true; None] = @nil run) by (left; lia).
  split; [exact H|].
  exact (proj1 (header_threshold (mkpara "ROOT CAUSE:" [Some true; None]) H)).
Defined.

(** C9: once the header pass stores a section, every stored body is
    non-empty, and a header followed by nothing but blank blocks up to the
    next header (or the end) contributes nothing: removing it leaves the
    result unchanged. *)
Theorem extract_no_empty_sections (ps : list para) :
  Core.header_pass ps <> [] ->
  (forall k v, In (k, v) (Core.extract_document_sections_from_docx ps) -> v <> "") /\
  (forall pre h mid post,
     ps = (pre ++ h :: mid ++ post)%list ->
     Core.is_section_header h = true ->
     Forall (fun p => strip (p_text p) = "") mid ->
     (post = [] \/ exists h' post', post = h' :: post' /\ Core.is_section_header h' = true) ->
     Core.extract_document_sections_from_docx ps =
     Core.extract_document_sections_from_docx (pre ++ mid ++ post)%list).
Proof.
  intros Hne. split.
  - intros k v Hin. rewrite extract_of_nonempty_pass in Hin by exact Hne.
    exact (proj2 (ExtractFacts.header_pass_ok ps _ Hin)).
  - intros pre h mid post -> Hh Hmid Hpost.
    assert (E : Core.header_pass (pre ++ h :: mid ++ post)%list =
                Core.header_pass (pre ++ mid ++ post)%list)
      by (apply ExtractFacts.header_pass_drop_empty; assumption).
    rewrite (extract_of_nonempty_pass _ Hne).
    rewrite extract_of_nonempty_pass by (rewrite <- E; exact Hne).
    exact E.
Qed.

Lemma extract_no_empty_sections_witness :
  Core.header_pass empty_header_doc <> [] /\
  Core.extract_document_sections_from_docx empty_header_doc =
  Core.extract_document_sections_from_docx
    [bold_para "BACKGROUND"; plain_para "We found X.";
     plain_para "  "; bold_para "ROOT CAUSE:"; plain_para "Y happened."].
Proof.
  assert (Hne : Core.header_pass empty_header_doc <> []) by (vm_compute; discriminate).
  split; [exact Hne|].
  apply (proj2 (extract_no_empty_sections empty_header_doc Hne)
           [bold_para "BACKGROUND"; plain_para "We found X."]
           (bold_para "TIMELINE:") [plain_para "  "]
           [bold_para "ROOT CAUSE:"; plain_para "Y happened."]).
  - reflexivity.
  - vm_compute. reflexivity.
  - constructor; [vm_compute; reflexivity | constructor].
  - right. eexists; eexists. split; [reflexivity | vm_compute; reflexivity].
Defined.

(** ** Facts about the injector *)
Module InjectFacts.
Import Injector Save Spec.

Lemma lookup_dict_set_eq (k : string) (v : string) (d : package) :
  lookup k (dict_set k v d) = Some v.
Proof.
  induction d as [|[k' v'] d IH]; simpl.
  - now rewrite String.eqb_refl.
  - destruct (String.eqb_spec k' k) as [->|Hne]; simpl.
    + now rewrite String.eqb_refl.
    + destruct (String.eqb_spec k' k); [contradiction | exact IH].
Qed.

Lemma lookup_dict_set_ne (k k0 : string) (v : string) (d : package) :
  k0 <> k -> lookup k (dict_set k0 v d) = lookup k d.
Proof.
  intros Hne. induction d as [|[k' v'] d IH]; simpl.
  - destruct (String.eqb_spec k0 k); [contradiction | reflexivity].
  - destruct (String.eqb_spec k' k0) as [->|Hne']; simpl.
    + destruct (String.eqb_spec k0 k); [contradiction | reflexivity].
    + destruct (String.eqb k' k); [reflexivity | exact IH].
Qed.

Lemma lookup_extract_none (k : string) (z d : package) :
  lookup k z = None -> lookup k (extract_into z d) = lookup k d.
Proof.
  unfold extract_into. revert d.
  induction z as [|[k' v'] z IH]; simpl; intros d Hz; [reflexivity|].
  destruct (String.eqb_spec k' k) as [_|Hne]; [discriminate|].
  rewrite (IH _ Hz). now apply lookup_dict_set_ne.
Qed.

Lemma comments_ne_rels : comments_path <> rels_path.
Proof. discriminate. Qed.
Lemma comments_ne_ct : content_types_path <> comments_path.
Proof. discriminate. Qed.
Lemma rels_ne_ct : content_types_path <> rels_path.
Proof. discriminate. Qed.

(** the manifest edits never touch the comments part *)
Lemma update_keeps_comments (files : package) :
  lookup comments_path (update_document_relationships files) = lookup comments_path files.
Proof.
  unfold update_document_relationships.
  assert (H1 : lookup comments_path
                 (match lookup rels_path files with
                  | Some rc => if negb (contains "comments.xml" rc)
                               then dict_set rels_path
                                      (replace "</Relationships>" (new_rel ++ "</Relationships>") rc)
                                      files
                               else files
                  | None => files end) = lookup comments_path files).
  { destruct (lookup rels_path files); [|reflexivity].
    destruct (negb _); [|reflexivity].
    apply lookup_dict_set_ne. discriminate. }
  destruct (lookup content_types_path _); [|exact H1].
  destruct (negb _); [|exact H1].
  rewrite lookup_dict_set_ne by exact comments_ne_ct. exact H1.
Qed.

(** with no relationship manifest, none is created *)
Lemma update_no_rels (files : package) :
  lookup rels_path files = None ->
  lookup rels_path (update_document_relationships files) = None.
Proof.
  intros H. unfold update_document_relationships. rewrite H.
  destruct (lookup content_types_path files); [|exact H].
  destruct (negb _); [|exact H].
  rewrite lookup_dict_set_ne by exact rels_ne_ct. exact H.
Qed.

(** [add_comment] numbers the staged comments consecutively *)
Lemma add_steps_spec (cs : list (Z * string * string * datetime)) (w : wdoc) :
  doc_path (fold_left add_step cs w) = doc_path w /\
  map c_id (comments (fold_left add_step cs w)) =
    (map c_id (comments w) ++ seq (comment_id w) (length cs))%list /\
  comment_id (fold_left add_step cs w) = comment_id w + length cs.
Proof.
  revert w. induction cs as [|[[[i t] a] d] cs IH]; intros w; simpl.
  - rewrite app_nil_r, Nat.add_0_r. auto.
  - destruct (IH (add_comment w i t a d)) as [H1 [H2 H3]]. simpl in *.
    rewrite H1, H2, H3, map_app, <- app_assoc. simpl.
    rewrite Nat.add_1_r. repeat split. lia.
Qed.

Lemma stage_doc_path pkg cs : doc_path (stage pkg cs) = pkg.
Proof. exact (proj1 (add_steps_spec cs (new_wdoc pkg))). Qed.

Lemma stage_ids pkg cs : map c_id (comments (stage pkg cs)) = seq 1 (length cs).
Proof. exact (proj1 (proj2 (add_steps_spec cs (new_wdoc pkg)))). Qed.

End InjectFacts.

Module InjectClaims.
Import Injector Save ReadBack Spec.

Ltac run_leaf :=
  first [ reflexivity
        | discriminate
        | match goal with H : ?x <> ?x |- _ => exact (False_ind _ (H eq_refl)) end
        | match goal with H : _ = _ |- _ => discriminate H end
        | (left; run_leaf)
        | (right; run_leaf) ].

Ltac run_facts :=
  repeat match goal with
         | |- _ /\ _ => split
         | |- _ => progress intros
         end; run_leaf.

(** the slip of the handler: an input python-docx cannot load makes the
    handler itself raise, as [temp_docx] was never assigned *)
Lemma unloadable_input_raises (lib : docx_lib) (w : wdoc) (f : fault) (hf : hfault) :
  docx_open lib (doc_path w) = None ->
  save_with_comments lib w f hf fs0 = (Raised "UnboundLocalError", fs0).
Proof. intros H. unfold save_with_comments. now rewrite H. Qed.




(** C3 (as amended): if the package python-docx writes for the input has
    no relationship manifest (as for an input whose main part has no
    relationships) and no call fails, injection does not report a
    failure: it skips the relationship edit, returns True, writes an output
    archive holding the comments part and still no relationship manifest,
    and leaves no scratch directory or intermediate archive. *)
Theorem missing_rels_still_succeeds (lib : docx_lib) (pkg doc : package)
    (cs : list (Z * string * string * datetime)) (hf : hfault) :
  lib pkg = Some doc -> lookup rels_path doc = None ->
  let r := inject lib (Some pkg) cs NoFault hf in
  fst r = Returned true /\ scratch (snd r) = None /\ temp_docx (snd r) = None /\
  out_part (snd r) rels_path = None /\
  out_part (snd r) comments_path = Some (comments_xml (comments (stage (Some pkg) cs))).
Proof.
  intros Hlib Hrels. unfold inject, save_with_comments.
  rewrite InjectFacts.stage_doc_path. cbn [docx_open]. rewrite Hlib.
  cbn -[comments_xml update_document_relationships extract_into].
  unfold out_part; cbn -[comments_xml update_document_relationships extract_into].
  repeat split.
  - apply InjectFacts.update_no_rels.
    rewrite InjectFacts.lookup_dict_set_ne by exact InjectFacts.comments_ne_rels.
    rewrite InjectFacts.lookup_extract_none by exact Hrels. reflexivity.
  - rewrite InjectFacts.update_keeps_comments. apply InjectFacts.lookup_dict_set_eq.
Qed.

Lemma missing_rels_still_succeeds_witness :
  pydocx_known min_docx_norels = Some min_docx_norels_saved /\
  lookup rels_path min_docx_norels_saved = None /\
  fst (inject pydocx_known (Some min_docx_norels) [(0%Z, "Add detail.", "AI Feedback", demo_date)]
              NoFault HandlerOk) = Returned true.
Proof.
  assert (H1 : pydocx_known min_docx_norels = Some min_docx_norels_saved) by (vm_compute; reflexivity).
  assert (H2 : lookup rels_path min_docx_norels_saved = None) by (vm_compute; reflexivity).
  split; [exact H1|]. split; [exact H2|].
  exact (proj1 (missing_rels_still_succeeds pydocx_known min_docx_norels min_docx_norels_saved
                  [(0%Z, "Add detail.", "AI Feedback", demo_date)] HandlerOk H1 H2)).
Defined.

(** C3 counterexample: an input without the relationship manifest that
    python-docx loads; injection reports success and writes an output
    archive, which has no relationship manifest either. *)
Lemma missing_rels_cex :
  let r := inject pydocx_known (Some min_docx_norels)
                  [(0%Z, "Add detail.", "AI Feedback", demo_date)] NoFault HandlerOk in
  lookup rels_path min_docx_norels = None /\
  fst r = Returned true /\ output (snd r) <> None /\ out_part (snd r) rels_path = None.
Proof. vm_compute. repeat split; discriminate. Qed.

(** C6 (code bug): the comment text is pasted into the comments part
    without XML escaping; on a document python-docx loads, a review text
    holding comment markup turns one staged comment (id 1) into two
    comment elements, ids 1 and 99. The manifests still get exactly one
    comments entry each. *)
Theorem comment_markup_not_escaped :
  let cs := [(0%Z, markup_text, "AI Feedback", demo_date)] in
  let r := inject pydocx_known (Some min_docx) cs NoFault HandlerOk in
  map c_id (comments (stage (Some min_docx) cs)) = [1] /\
  fst r = Returned true /\
  option_map comment_ids (out_part (snd r) comments_path) = Some [1; 99] /\
  option_map (count_sub "comments.xml") (out_part (snd r) rels_path) = Some 1 /\
  option_map (count_sub "comments.xml") (out_part (snd r) content_types_path) = Some 1.
Proof. vm_compute. repeat split. Qed.

(** with plain review texts the part reads back as ids 1..N *)
Example plain_texts_roundtrip :
  let cs := [(3%Z, "Add detail.", "AI Feedback", demo_date);
             ((-1)%Z, "Cite the SOP.", "Reviewer", demo_date)] in
  let r := inject pydocx_known (Some min_docx) cs NoFault HandlerOk in
  option_map comment_ids (out_part (snd r) comments_path) = Some [1; 2] /\
  option_map (count_sub "comments.xml") (out_part (snd r) rels_path) = Some 1 /\
  option_map (count_sub "comments.xml") (out_part (snd r) content_types_path) = Some 1.
Proof. vm_compute. repeat split. Qed.

Lemma create_comment_xml_forget (c1 c2 : comment) :
  forget_index c1 = forget_index c2 -> create_comment_xml c1 = create_comment_xml c2.
Proof.
  destruct c1, c2; unfold forget_index; simpl. intros H. inversion H. reflexivity.
Qed.

Lemma comments_xml_forget (cs1 cs2 : list comment) :
  map forget_index cs1 = map forget_index cs2 -> comments_xml cs1 = comments_xml cs2.
Proof.
  intros H. unfold comments_xml.
  assert (Hm : map create_comment_xml cs1 = map create_comment_xml cs2).
  { revert cs2 H. induction cs1 as [|c1 cs1 IH]; intros [|c2 cs2] H; cbn [map] in *;
      try discriminate; auto.
    pose proof (f_equal (hd (forget_index c1)) H) as Hc.
    pose proof (f_equal (@tl _) H) as Hs. cbn [hd tl] in Hc, Hs.
    f_equal; [now apply create_comment_xml_forget | now apply IH]. }
  now rewrite Hm.
Qed.

(** C10: two staged comment lists that differ only in their paragraph
    indices give the same comments part and the same run of
    [save_with_comments], outcome and files alike, whatever python-docx
    does and under every failure. *)
Theorem injection_ignores_paragraph_index (lib : docx_lib) (pkg : option package)
    (cs1 cs2 : list comment) (k1 k2 : nat) (f : fault) (hf : hfault) (s0 : fs) :
  map forget_index cs1 = map forget_index cs2 ->
  comments_xml cs1 = comments_xml cs2 /\
  save_with_comments lib (mkw pkg cs1 k1) f hf s0 = save_with_comments lib (mkw pkg cs2 k2) f hf s0.
Proof.
  intros H. pose proof (comments_xml_forget _ _ H) as Hx. split; [exact Hx|].
  unfold save_with_comments, try_body. cbn [doc_path comments]. now rewrite Hx.
Qed.

Lemma injection_ignores_paragraph_index_witness :
  map forget_index [demo_comment 0] = map forget_index [demo_comment (-7)] /\
  save_with_comments pydocx_known (mkw (Some min_docx) [demo_comment 0] 2) NoFault HandlerOk fs0 =
  save_with_comments pydocx_known (mkw (Some min_docx) [demo_comment (-7)] 2) NoFault HandlerOk fs0.
Proof.
  assert (H : map forget_index [demo_comment 0] = map forget_index [demo_comment (-7)])
    by reflexivity.
  split; [exact H|].
  exact (proj2 (injection_ignores_paragraph_index pydocx_known (Some min_docx) _ _ 2 2
                  NoFault HandlerOk fs0 H)).
Defined.

End InjectClaims.

Module FallbackFacts.
Import Injector Fallback Spec.

Lemma existsb_eqb_In (x : string) (l : list string) :
  existsb (String.eqb x) l = true <-> In x l.
Proof.
  rewrite existsb_exists. split.
  - intros [y [Hy E]]. apply String.eqb_eq in E. now subst.
  - intros H. exists x. split; [exact H | apply String.eqb_refl].
Qed.

Lemma dedup_acc_spec (l acc : list string) :
  NoDup acc ->
  let r := fold_left (fun acc x => if existsb (String.eqb x) acc then acc else (acc ++ [x])%list) l acc in
  NoDup r /\ (forall x, In x r <-> In x acc \/ In x l).
Proof.
  revert acc. induction l as [|y l IH]; intros acc Hnd; simpl.
  - split; [exact Hnd|]. intros x; tauto.
  - destruct (existsb (String.eqb y) acc) eqn:E.
    + apply existsb_eqb_In in E.
      destruct (IH acc Hnd) as [H1 H2]. split; [exact H1|].
      intros x. rewrite H2. split; [tauto|].
      intros [H|[<-|H]]; auto.
    + assert (Hn : ~ In y acc) by (intros H; apply existsb_eqb_In in H; congruence).
      assert (Hnd' : NoDup (acc ++ [y])%list).
      { apply NoDup_app; auto using NoDup_cons, NoDup_nil.
        intros x Hx [<-|[]]. contradiction. }
      destruct (IH _ Hnd') as [H1 H2]. split; [exact H1|].
      intros x. rewrite H2, in_app_iff. simpl. tauto.
Qed.

Lemma dedup_first_NoDup (l : list string) : NoDup (dedup_first l).
Proof. exact (proj1 (dedup_acc_spec l [] (NoDup_nil _))). Qed.

Lemma dedup_first_In (l : list string) x : In x (dedup_first l) <-> In x l.
Proof.
  unfold dedup_first. rewrite (proj2 (dedup_acc_spec l [] (NoDup_nil _))). simpl. tauto.
Qed.

Lemma dedup_first_snoc (l : list string) x :
  dedup_first (l ++ [x])%list =
  if existsb (String.eqb x) (dedup_first l) then dedup_first l else (dedup_first l ++ [x])%list.
Proof. unfold dedup_first. now rewrite fold_left_app. Qed.

Lemma dd_append_in (k : string) (c : fcomment) (F : string -> list fcomment) (ks : list string) :
  NoDup ks -> In k ks ->
  dd_append k c (map (fun s => (s, F s)) ks) =
  map (fun s => (s, if String.eqb s k then (F s ++ [c])%list else F s)) ks.
Proof.
  induction ks as [|a ks IH]; intros Hnd Hin; [destruct Hin|].
  inversion Hnd as [|? ? Ha Hks]; subst. simpl.
  destruct (String.eqb_spec a k) as [->|Hne].
  - f_equal. apply map_ext_in. intros s Hs.
    destruct (String.eqb_spec s k) as [->|_]; [contradiction | reflexivity].
  - destruct Hin as [->|Hin]; [contradiction|]. f_equal. now apply IH.
Qed.

Lemma dd_append_notin (k : string) (c : fcomment) (F : string -> list fcomment) (ks : list string) :
  ~ In k ks ->
  dd_append k c (map (fun s => (s, F s)) ks) = (map (fun s => (s, F s)) ks ++ [(k, [c])])%list.
Proof.
  induction ks as [|a ks IH]; intros Hn; simpl; [reflexivity|].
  destruct (String.eqb_spec a k) as [->|_]; [exfalso; apply Hn; left; reflexivity|].
  f_equal. apply IH. intros H; apply Hn; right; exact H.
Qed.

Lemma filter_none_of_section (l : list fcomment) (k : string) :
  ~ In k (map fc_section l) -> filter (of_section k) l = [].
Proof.
  induction l as [|c l IH]; simpl; intros Hn; [reflexivity|].
  unfold of_section at 1. destruct (String.eqb_spec (fc_section c) k) as [E|_].
  - exfalso. apply Hn. left. exact E.
  - apply IH. intros H; apply Hn; right; exact H.
Qed.

Lemma grouped_snoc (prev : list fcomment) (c : fcomment) :
  dd_append (fc_section c) c (grouped prev) = grouped (prev ++ [c])%list.
Proof.
  unfold grouped. rewrite map_app. simpl. rewrite dedup_first_snoc.
  set (ks := dedup_first (map fc_section prev)).
  assert (Hnd : NoDup ks) by apply dedup_first_NoDup.
  assert (Hf : forall s, filter (of_section s) (prev ++ [c])%list =
                         (filter (of_section s) prev ++
                          (if String.eqb (fc_section c) s then [c] else []))%list).
  { intros s. rewrite filter_app. simpl. unfold of_section at 2.
    destruct (String.eqb (fc_section c) s); reflexivity. }
  destruct (existsb (String.eqb (fc_section c)) ks) eqn:E.
  - apply existsb_eqb_In in E.
    rewrite (dd_append_in _ c (fun s => filter (of_section s) prev) ks Hnd E).
    apply map_ext. intros s. rewrite Hf.
    destruct (String.eqb_spec s (fc_section c)) as [->|Hne].
    + now rewrite String.eqb_refl.
    + destruct (String.eqb_spec (fc_section c) s) as [E'|_]; [congruence|].
      now rewrite app_nil_r.
  - assert (Hn : ~ In (fc_section c) ks)
      by (intros H; apply existsb_eqb_In in H; congruence).
    rewrite (dd_append_notin _ c (fun s => filter (of_section s) prev) ks Hn).
    rewrite map_app. simpl. f_equal.
    + apply map_ext_in. intros s Hs. rewrite Hf.
      destruct (String.eqb_spec (fc_section c) s) as [<-|_]; [contradiction|].
      now rewrite app_nil_r.
    + rewrite Hf, String.eqb_refl. f_equal.
      rewrite filter_none_of_section; [reflexivity|].
      intros H. apply Hn. apply dedup_first_In. exact H.
Qed.

Lemma group_by_section_spec (cs : list fcomment) : group_by_section cs = grouped cs.
Proof.
  unfold group_by_section.
  assert (H : forall prev, fold_left (fun d c => dd_append (fc_section c) c d) cs (grouped prev)
                           = grouped (prev ++ cs)%list).
  { induction cs as [|c cs IH]; intros prev; simpl.
    - now rewrite app_nil_r.
    - rewrite grouped_snoc, IH, <- app_assoc. reflexivity. }
  exact (H []).
Qed.

End FallbackFacts.

Module FallbackClaims.
Import Injector Fallback Spec FallbackFacts.


End FallbackClaims.

(** ** Facts about the Hawkeye references and the risk classifier *)

Module StrFacts.

Lemma str_app_assoc (a b c : string) : ((a ++ b) ++ c = a ++ (b ++ c))%string.
Proof. induction a as [|x a IH]; simpl; [reflexivity | now rewrite IH]. Qed.

Lemma map_str_app (f : ascii -> ascii) (a b : string) :
  map_str f (a ++ b) = (map_str f a ++ map_str f b)%string.
Proof. induction a as [|x a IH]; simpl; [reflexivity | now rewrite IH]. Qed.

Lemma map_str_map_str (f g : ascii -> ascii) (s : string) :
  map_str f (map_str g s) = map_str (fun c => f (g c)) s.
Proof. induction s as [|x s IH]; simpl; [reflexivity | now rewrite IH]. Qed.

Lemma map_str_ext (f g : ascii -> ascii) (s : string) :
  (forall c, f c = g c) -> map_str f s = map_str g s.
Proof. intros H. induction s as [|x s IH]; simpl; [reflexivity | now rewrite H, IH]. Qed.

Lemma lower_upper_c (c : ascii) : lower_c (upper_c c) = lower_c c.
Proof. destruct c as [[] [] [] [] [] [] [] []]; reflexivity. Qed.

Lemma lower_lower_c (c : ascii) : lower_c (lower_c c) = lower_c c.
Proof. destruct c as [[] [] [] [] [] [] [] []]; reflexivity. Qed.

Lemma lower_upper (s : string) : lower (upper s) = lower s.
Proof.
  unfold lower, upper. rewrite map_str_map_str. apply map_str_ext, lower_upper_c.
Qed.

Lemma lower_lower (s : string) : lower (lower s) = lower s.
Proof.
  unfold lower. rewrite map_str_map_str. apply map_str_ext, lower_lower_c.
Qed.

Lemma lower_app (a b : string) : lower (a ++ b) = (lower a ++ lower b)%string.
Proof. apply map_str_app. Qed.

Lemma prefix_app (x a b : string) : prefix x a = true -> prefix x (a ++ b) = true.
Proof.
  revert a. induction x as [|cx x IH]; intros a H; [now destruct (a ++ b)|].
  destruct a as [|ca a]; simpl in *; [discriminate|].
  destruct (ascii_dec cx ca); [now apply IH | discriminate].
Qed.

Lemma contains_app_l (x a b : string) : contains x a = true -> contains x (a ++ b) = true.
Proof.
  induction a as [|ca a IH]; intros H.
  - simpl in H. destruct x; [destruct b; reflexivity | discriminate].
  - cbn [contains append] in H |- *. apply orb_true_iff in H as [H|H].
    + pose proof (prefix_app x (String ca a) b H) as H'. cbn [append] in H'.
      rewrite H'. reflexivity.
    + rewrite (IH H). apply orb_true_r.
Qed.

Lemma contains_app_r (x a b : string) : contains x b = true -> contains x (a ++ b) = true.
Proof.
  induction a as [|ca a IH]; intros H; [exact H|].
  cbn [contains append]. rewrite (IH H). apply orb_true_r.
Qed.

Lemma prefix_refl (x : string) : prefix x x = true.
Proof.
  induction x as [|c x IH]; [reflexivity|]. simpl.
  destruct (ascii_dec c c); [exact IH | congruence].
Qed.

Lemma contains_refl (x : string) : contains x x = true.
Proof. destruct x; [reflexivity|]. cbn [contains]. now rewrite (prefix_refl (String a x)). Qed.

End StrFacts.

Module HawkeyeFacts.
Import Hawkeye StrFacts.

Lemma fold_if_app {A B} (P : A -> bool) (g : A -> B) (l : list A) (acc : list B) :
  fold_left (fun r e => if P e then (r ++ [g e])%list else r) l acc =
  (acc ++ map g (filter P l))%list.
Proof.
  revert acc. induction l as [|e l IH]; intros acc; simpl.
  - now rewrite app_nil_r.
  - destruct (P e); rewrite IH; [now rewrite <- app_assoc | reflexivity].
Qed.

Lemma refs_eq (category content : string) :
  get_hawkeye_reference category content =
  firstn 3 (map (fun e => mkref (fst e) (section_name (fst e)))
                (filter (fun e => section_matches (lower content) (lower category) (snd e))
                        keyword_mapping)).
Proof.
  unfold get_hawkeye_reference. f_equal.
  apply (fold_if_app (fun e => section_matches (lower content) (lower category) (snd e))
                     (fun e => mkref (fst e) (section_name (fst e)))).
Qed.

Lemma SS_map_filter {A B} (R : B -> B -> Prop) (f : A -> B) (P : A -> bool) (l : list A) :
  StronglySorted R (map f l) -> StronglySorted R (map f (filter P l)).
Proof.
  induction l as [|x l IH]; intros H; simpl; [constructor|].
  inversion H as [|? ? Hs Hf]; subst.
  destruct (P x); simpl; [|now apply IH].
  constructor; [now apply IH|].
  rewrite Forall_forall in *. intros y Hy.
  apply in_map_iff in Hy as [z [<- Hz]]. apply filter_In in Hz as [Hz _].
  apply Hf, in_map, Hz.
Qed.

Lemma SS_firstn {A} (R : A -> A -> Prop) (n : nat) (l : list A) :
  StronglySorted R l -> StronglySorted R (firstn n l).
Proof.
  revert l. induction n as [|n IH]; intros l H; [constructor|].
  destruct l as [|x l]; simpl; [constructor|].
  inversion H as [|? ? Hs Hf]; subst. constructor; [now apply IH|].
  rewrite Forall_forall in *. intros y Hy. apply Hf.
  rewrite <- (firstn_skipn n l). apply in_or_app. now left.
Qed.

Lemma In_firstn_l {A} (n : nat) (l : list A) (x : A) : In x (firstn n l) -> In x l.
Proof. intros H. rewrite <- (firstn_skipn n l). apply in_or_app. now left. Qed.

Lemma keyword_mapping_sorted : StronglySorted lt (map fst keyword_mapping).
Proof. simpl. repeat (constructor; [|repeat constructor; lia]). constructor. Qed.

Lemma keyword_mapping_entry (e : nat * list string) :
  In e keyword_mapping -> 1 <= fst e <= 20 /\ section_name (fst e) <> "".
Proof.
  simpl. intros H. repeat (destruct H as [<-|H]; [split; [simpl; lia | discriminate]|]).
  destruct H.
Qed.

Lemma get_str_upper (o : option string) : get_str (option_map upper o) = upper (get_str o).
Proof. now destruct o. Qed.

Lemma existsb_contains (l : list string) (x s : string) :
  In x l -> contains x s = true -> existsb (fun i => contains i s) l = true.
Proof. intros Hin Hc. apply existsb_exists. now exists x. Qed.

Lemma fields_contain (x d c : string) :
  contains x (lower d) = true \/ contains x (lower c) = true ->
  contains x (lower (d ++ " " ++ c)) = true.
Proof.
  rewrite !lower_app. intros [H|H].
  - now apply contains_app_l.
  - now apply contains_app_r, contains_app_r.
Qed.

(** get_hawkeye_reference: at most three references, in increasing section
    number, each naming an existing checklist section whose keywords occur
    in the content or the category; with fewer than three, every section
    whose keywords occur is listed *)
Theorem get_hawkeye_reference_shape (category content : string) :
  let refs := get_hawkeye_reference category content in
  length refs <= 3 /\
  StronglySorted lt (map number refs) /\
  (forall r, In r refs ->
     1 <= number r <= 20 /\ name r = section_name (number r) /\ name r <> "" /\
     exists kws, In (number r, kws) keyword_mapping /\
                 section_matches (lower content) (lower category) kws = true) /\
  (length refs < 3 ->
   forall n kws, In (n, kws) keyword_mapping ->
     section_matches (lower content) (lower category) kws = true ->
     exists r, In r refs /\ number r = n).
Proof.
  cbv zeta. rewrite refs_eq.
  set (P := fun e : nat * list string => section_matches (lower content) (lower category) (snd e)).
  set (g := fun e : nat * list string => mkref (fst e) (section_name (fst e))).
  split; [apply firstn_le_length|].
  split; [|split].
  - rewrite firstn_map, map_map. unfold g. cbn [number].
    rewrite <- firstn_map. apply SS_firstn, SS_map_filter, keyword_mapping_sorted.
  - intros r Hr. apply In_firstn_l, in_map_iff in Hr as [e [<- He]].
    apply filter_In in He as [He HP].
    destruct (keyword_mapping_entry e He) as [H1 H2].
    unfold g. cbn [number name]. repeat split; try lia; try exact H2.
    exists (snd e). destruct e as [n kws]. split; [exact He | exact HP].
  - intros Hlt n kws Hin Hm.
    assert (Hall : firstn 3 (map g (filter P keyword_mapping)) = map g (filter P keyword_mapping)).
    { apply firstn_all2. rewrite length_firstn in Hlt. lia. }
    rewrite Hall. exists (g (n, kws)). split; [|reflexivity].
    apply in_map, filter_In. split; [exact Hin | exact Hm].
Qed.

(** get_hawkeye_reference ignores letter case on 7-bit ASCII text:
    upper-casing or lower-casing the category and the content gives the
    same references *)
Theorem get_hawkeye_reference_case_insensitive (category content : string) :
  ascii7 category = true -> ascii7 content = true ->
  get_hawkeye_reference (upper category) (upper content) = get_hawkeye_reference category content /\
  get_hawkeye_reference (lower category) (lower content) = get_hawkeye_reference category content.
Proof.
  intros _ _.
  unfold get_hawkeye_reference. rewrite !lower_upper, !lower_lower. split; reflexivity.
Qed.

Lemma get_hawkeye_reference_case_insensitive_witness :
  ascii7 "Investigation" = true /\ ascii7 "Customer trust was hit." = true /\
  get_hawkeye_reference (upper "Investigation") (upper "Customer trust was hit.") =
  get_hawkeye_reference "Investigation" "Customer trust was hit.".
Proof.
  assert (H1 : ascii7 "Investigation" = true) by reflexivity.
  assert (H2 : ascii7 "Customer trust was hit." = true) by reflexivity.
  refine (conj H1 (conj H2 _)).
  exact (proj1 (get_hawkeye_reference_case_insensitive _ _ H1 H2)).
Defined.

(** classify_risk_level: a high-risk indicator in the description or in the
    category gives "High" whatever else the text holds; a medium-risk
    indicator never gives "Low"; an item with neither key is "Low"; on
    7-bit ASCII fields, their letter case does not matter *)
Theorem classify_risk_level_rules (item : fitem) :
  (forall ind, In ind high_risk_indicators ->
     contains ind (lower (get_str (fi_description item))) = true \/
     contains ind (lower (get_str (fi_category item))) = true ->
     classify_risk_level item = "High") /\
  (forall ind, In ind medium_risk_indicators ->
     contains ind (lower (get_str (fi_description item))) = true \/
     contains ind (lower (get_str (fi_category item))) = true ->
     classify_risk_level item <> "Low") /\
  (fi_description item = None -> fi_category item = None -> classify_risk_level item = "Low") /\
  (ascii7 (get_str (fi_description item)) = true -> ascii7 (get_str (fi_category item)) = true ->
   classify_risk_level (mkfi (option_map upper (fi_description item))
                            (option_map upper (fi_category item))
                            (fi_refs item) (fi_risk item)) = classify_risk_level item).
Proof.
  destruct item as [d c r k]. unfold classify_risk_level. cbn [fi_description fi_category].
  split; [|split; [|split]].
  - intros ind Hin Hc. rewrite (existsb_contains _ _ _ Hin (fields_contain _ _ _ Hc)). reflexivity.
  - intros ind Hin Hc. rewrite (existsb_contains _ _ _ Hin (fields_contain _ _ _ Hc)).
    destruct (existsb _ high_risk_indicators); discriminate.
  - intros -> ->. vm_compute. reflexivity.
  - intros _ _. rewrite !get_str_upper, !lower_app, !lower_upper. reflexivity.
Qed.

(** classify_risk_level joins description and category with one space
    before matching: a description ending in "health" and a category
    starting with "safety" make "health safety" and give "High", though
    neither field holds an indicator on its own *)
Theorem classify_risk_level_joins_fields (d c : string) (refs : option (list nat))
    (risk : option string) :
  classify_risk_level (mkfi (Some (d ++ "health")) (Some ("safety" ++ c)) refs risk) = "High".
Proof.
  unfold classify_risk_level. cbn [fi_description fi_category get_str].
  assert (H : contains "health safety"
                (lower ((d ++ "health") ++ " " ++ "safety" ++ c)) = true).
  { rewrite !str_app_assoc, lower_app. apply contains_app_r.
    change ("health" ++ " " ++ "safety" ++ c)%string with ("health safety" ++ c)%string.
    rewrite lower_app. apply contains_app_l. apply contains_refl. }
  assert (Hin : In "health safety" high_risk_indicators) by (simpl; auto 10).
  rewrite (existsb_contains _ "health safety" _ Hin H). reflexivity.
Qed.

(** the enrichment loop of analyze_section_with_ai: afterwards every item
    has 'hawkeye_refs' and 'risk_level'; a missing one is filled from
    get_hawkeye_reference(category, description) and classify_risk_level,
    a present one is kept, description and category are untouched, and a
    second pass changes nothing *)
Theorem enrich_items_spec (items : list fitem) :
  (forall it, In it items ->
     let it' := enrich_item it in
     fi_description it' = fi_description it /\ fi_category it' = fi_category it /\
     fi_refs it' = Some (match fi_refs it with
                         | Some x => x
                         | None => map number (get_hawkeye_reference (get_str (fi_category it))
                                                                     (get_str (fi_description it)))
                         end) /\
     fi_risk it' = Some (match fi_risk it with
                         | Some x => x
                         | None => classify_risk_level it
                         end)) /\
  enrich_items (enrich_items items) = enrich_items items.
Proof.
  split.
  - intros [d c [x|] [k|]] _; unfold enrich_item; cbn [fi_description fi_category fi_refs fi_risk];
      repeat split.
  - unfold enrich_items. rewrite map_map. apply map_ext.
    intros [d c [x|] [k|]]; unfold enrich_item; cbn [fi_description fi_category fi_refs fi_risk];
      reflexivity.
Qed.

End HawkeyeFacts.

(** ** Further facts about the two extractors *)

Module ExtractMore.
Import SpecX.

Lemma from_core_header_mono (d e : list para) (k : string) :
  from_core_header d k -> from_core_header (d ++ e) k.
Proof. intros [p [Hp H]]. exists p. split; [apply in_or_app; now left | exact H]. Qed.

Lemma from_app_header_mono (d e : list para) (k : string) :
  from_app_header d k -> from_app_header (d ++ e) k.
Proof. intros [p [Hp H]]. exists p. split; [apply in_or_app; now left | exact H]. Qed.

Lemma close_section_keys (cur : option string) (c : list string) secs k v :
  In (k, v) (Core.close_section cur c secs) -> In (k, v) secs \/ cur = Some k.
Proof.
  unfold Core.close_section. destruct cur as [name|], c as [|t ts]; auto.
  destruct (String.eqb name ""), (Core.is_excluded name); auto.
  intros H. destruct (ExtractFacts.dict_set_In _ _ _ _ _ H) as [[-> _]|H']; auto.
Qed.

Lemma core_keys_fold (ps done : list para) (s : Core.xstate) :
  (forall n, Core.current_section s = Some n -> from_core_header done n) ->
  (forall k v, In (k, v) (Core.sections s) -> from_core_header done k) ->
  (forall n, Core.current_section (fold_left Core.step ps s) = Some n ->
             from_core_header (done ++ ps) n) /\
  (forall k v, In (k, v) (Core.sections (fold_left Core.step ps s)) ->
               from_core_header (done ++ ps) k).
Proof.
  revert done s. induction ps as [|p ps IH]; intros done s Hc Hs.
  - simpl. rewrite app_nil_r. auto.
  - simpl. replace (done ++ p :: ps)%list with ((done ++ [p]) ++ ps)%list by now rewrite <- app_assoc.
    apply IH.
    + intros n. unfold Core.step. destruct (Core.is_section_header p) eqn:Hh.
      * simpl. intros E. inversion E. exists p.
        split; [apply in_or_app; right; now left | split; [exact Hh | reflexivity]].
      * destruct (String.eqb (strip (p_text p)) ""); simpl;
          intros E; apply from_core_header_mono, Hc, E.
    + intros k v. unfold Core.step. destruct (Core.is_section_header p) eqn:Hh.
      * simpl. intros H. destruct (close_section_keys _ _ _ _ _ H) as [H'|H'].
        -- exact (from_core_header_mono _ _ _ (Hs _ _ H')).
        -- exact (from_core_header_mono _ _ _ (Hc _ H')).
      * destruct (String.eqb (strip (p_text p)) ""); simpl;
          intros H; apply (from_core_header_mono _ _ _ (Hs _ _ H)).
Qed.

Lemma core_nonheaders_fold (ps : list para) (s : Core.xstate) :
  Core.current_section s = None -> Core.sections s = [] ->
  Forall (fun p => Core.is_section_header p = false) ps ->
  Core.current_section (fold_left Core.step ps s) = None /\
  Core.sections (fold_left Core.step ps s) = [].
Proof.
  intros Hc Hs H. revert s Hc Hs. induction H as [|p ps Hp _ IH]; intros s Hc Hs; simpl; auto.
  apply IH; unfold Core.step; rewrite Hp;
    destruct (String.eqb (strip (p_text p)) ""); simpl; auto.
Qed.

Lemma app_step_nonheader (s : App.astate) (p : para) :
  app_header p = false ->
  App.step s p = if String.eqb (strip (p_text p)) "" then s
                 else App.mka (App.current_section s) (App.content s ++ [strip (p_text p)])
                              (App.sections s).
Proof.
  unfold app_header, App.step. cbv zeta. intros H.
  destruct (String.eqb (strip (p_text p)) ""); [reflexivity|]. now rewrite H.
Qed.

Lemma app_nonheaders_fold (ps : list para) (cur : string) (c : list string) secs :
  Forall (fun p => app_header p = false) ps ->
  fold_left App.step ps (App.mka cur c secs) = App.mka cur (c ++ stripped_texts ps) secs.
Proof.
  intros H. revert c. induction H as [|p ps Hp _ IH]; intros c; simpl.
  - now rewrite app_nil_r.
  - rewrite (app_step_nonheader _ _ Hp). unfold stripped_texts. simpl.
    destruct (String.eqb (strip (p_text p)) ""); simpl; rewrite IH; [reflexivity|].
    now rewrite <- app_assoc.
Qed.

Lemma app_step_header (s : App.astate) (p : para) :
  app_header p = true ->
  App.step s p = App.mka (header_name p) []
                   (match App.content s with
                    | [] => App.sections s
                    | _ => dict_set (App.current_section s) (join nl (App.content s)) (App.sections s)
                    end).
Proof.
  unfold app_header, App.step. cbv zeta. intros H.
  destruct (String.eqb_spec (strip (p_text p)) "") as [E|_].
  - rewrite E in H. simpl in H. rewrite andb_false_r in H. discriminate.
  - now rewrite H.
Qed.

Lemma app_inv_fold (ps done : list para) (s : App.astate) :
  (App.current_section s = "Main Content" \/ from_app_header done (App.current_section s)) ->
  Forall (fun t => t <> "") (App.content s) ->
  (forall k v, In (k, v) (App.sections s) ->
     v <> "" /\ (k = "Main Content" \/ from_app_header done k)) ->
  let s' := fold_left App.step ps s in
  (App.current_section s' = "Main Content" \/ from_app_header (done ++ ps) (App.current_section s')) /\
  Forall (fun t => t <> "") (App.content s') /\
  (forall k v, In (k, v) (App.sections s') ->
     v <> "" /\ (k = "Main Content" \/ from_app_header (done ++ ps) k)).
Proof.
  revert done s. induction ps as [|p ps IH]; intros done s Hc Hct Hs.
  - simpl. rewrite app_nil_r. auto.
  - simpl. replace (done ++ p :: ps)%list with ((done ++ [p]) ++ ps)%list by now rewrite <- app_assoc.
    assert (Hc' : App.current_section s = "Main Content" \/
                  from_app_header (done ++ [p]) (App.current_section s)).
    { destruct Hc as [Hc|Hc]; [now left | right; now apply from_app_header_mono]. }
    assert (Hs' : forall k v, In (k, v) (App.sections s) ->
                  v <> "" /\ (k = "Main Content" \/ from_app_header (done ++ [p]) k)).
    { intros k v H. destruct (Hs k v H) as [Hv [Hk|Hk]]; split; auto.
      right; now apply from_app_header_mono. }
    destruct (app_header p) eqn:Hh.
    + rewrite (app_step_header _ _ Hh). apply IH; simpl.
      * right. exists p. split; [apply in_or_app; right; now left | split; [exact Hh | reflexivity]].
      * constructor.
      * destruct (App.content s) as [|t ts] eqn:Ec; [exact Hs'|].
        intros k v H. destruct (ExtractFacts.dict_set_In _ _ _ _ _ H) as [[-> ->]|H'].
        -- inversion Hct; subst. split; [exact (ExtractFacts.join_head_nonempty _ _ _ H2) | exact Hc'].
        -- exact (Hs' _ _ H').
    + rewrite (app_step_nonheader _ _ Hh).
      destruct (String.eqb_spec (strip (p_text p)) "") as [_|Hne]; apply IH; simpl; auto.
      apply Forall_app; auto.
Qed.

(** the core extractor: every key of its result is "Main Content" (the
    fallback) or the stripped text, trailing colons removed, of a block of
    the input that the extractor took for a header *)
Theorem core_keys_from_headers (ps : list para) (k v : string) :
  In (k, v) (Core.extract_document_sections_from_docx ps) ->
  k = "Main Content" \/ from_core_header ps k.
Proof.
  unfold Core.extract_document_sections_from_docx.
  destruct (core_keys_fold ps [] Core.init) as [Hc Hs].
  { intros n E. discriminate. }
  { intros k' v' []. }
  simpl in Hc, Hs.
  destruct (Core.header_pass ps) as [|kv secs] eqn:E.
  - simpl. intros [H|[]]. inversion H. now left.
  - intros H. right. rewrite <- E in H. unfold Core.header_pass in H.
    destruct (close_section_keys _ _ _ _ _ H) as [H'|H'].
    + exact (Hs _ _ H').
    + exact (Hc _ H').
Qed.

(** the core extractor on a document none of whose blocks is a header:
    the single "Main Content" section holding the original, unstripped
    texts of the non-blank blocks *)
Theorem core_without_headers (ps : list para) :
  Forall (fun p => Core.is_section_header p = false) ps ->
  Core.extract_document_sections_from_docx ps = Core.fallback ps.
Proof.
  intros H. unfold Core.extract_document_sections_from_docx, Core.header_pass.
  destruct (core_nonheaders_fold ps Core.init eq_refl eq_refl H) as [-> ->].
  reflexivity.
Qed.

(** the app.py extractor on a document none of whose blocks passes its
    header test: no section at all when every block is blank, otherwise
    the single "Main Content" section of the stripped non-blank texts *)
Theorem app_without_headers (ps : list para) :
  Forall (fun p => app_header p = false) ps ->
  App.extract_sections ps =
  match stripped_texts ps with
  | [] => []
  | texts => [("Main Content", join nl texts)]
  end.
Proof.
  intros H. unfold App.extract_sections, App.init.
  rewrite (app_nonheaders_fold _ _ _ _ H). simpl.
  destruct (stripped_texts ps); reflexivity.
Qed.

(** the app.py extractor: every stored body is non-empty, and every key is
    "Main Content" or the stripped text, trailing colons removed, of a block
    that passed its header test *)
Theorem app_sections_shape (ps : list para) (k v : string) :
  In (k, v) (App.extract_sections ps) ->
  v <> "" /\ (k = "Main Content" \/ from_app_header ps k).
Proof.
  unfold App.extract_sections.
  destruct (app_inv_fold ps [] App.init) as [Hc [Hct Hs]];
    [now left | constructor | simpl; intros ? ? [] |].
  simpl in Hc, Hs.
  destruct (App.content (fold_left App.step ps App.init)) as [|t ts] eqn:Ec; [apply Hs|].
  intros H. destruct (ExtractFacts.dict_set_In _ _ _ _ _ H) as [[-> ->]|H'].
  - inversion Hct; subst. split; [exact (ExtractFacts.join_head_nonempty _ _ _ H2) | exact Hc].
  - exact (Hs _ _ H').
Qed.

Lemma app_rest_keeps (rest : list para) (s : App.astate) (v : string) :
  App.current_section s <> "Main Content" ->
  Injector.lookup "Main Content" (App.sections s) = Some v ->
  Forall (fun p => app_header p = false \/ header_name p <> "Main Content") rest ->
  App.current_section (fold_left App.step rest s) <> "Main Content" /\
  Injector.lookup "Main Content" (App.sections (fold_left App.step rest s)) = Some v.
Proof.
  intros Hc Hl H. revert s Hc Hl. induction H as [|p rest Hp _ IH]; intros s Hc Hl; simpl; auto.
  destruct (app_header p) eqn:Hh.
  - destruct Hp as [Hp|Hp]; [discriminate|].
    rewrite (app_step_header _ _ Hh). apply IH; simpl; [exact Hp|].
    destruct (App.content s); [exact Hl|].
    rewrite InjectFacts.lookup_dict_set_ne by exact Hc. exact Hl.
  - rewrite (app_step_nonheader _ _ Hh).
    destruct (String.eqb (strip (p_text p)) ""); apply IH; auto.
Qed.

(** a block whose stripped text has 100 characters or more is never a
    header, whatever its runs and its shape: both extractors append it to
    the current section's body *)
Theorem long_block_is_body (p : para) :
  100 <= String.length (strip (p_text p)) ->
  Core.is_section_header p = false /\ app_header p = false /\
  (forall s, Core.step s p =
     Core.mkx (Core.current_section s) (Core.current_content s ++ [strip (p_text p)])
              (Core.sections s)) /\
  (forall s, App.step s p =
     App.mka (App.current_section s) (App.content s ++ [strip (p_text p)]) (App.sections s)).
Proof.
  intros Hlen.
  assert (Hlt : Nat.ltb (String.length (strip (p_text p))) 100 = false)
    by (apply Nat.ltb_ge; exact Hlen).
  assert (Hne : String.eqb (strip (p_text p)) "" = false).
  { destruct (String.eqb_spec (strip (p_text p)) "") as [E|E]; [|reflexivity].
    rewrite E in Hlen. simpl in Hlen. lia. }
  assert (Hcore : Core.is_section_header p = false).
  { unfold Core.is_section_header. cbv zeta. rewrite Hlt, andb_false_r. reflexivity. }
  assert (Happ : app_header p = false).
  { unfold app_header. cbv zeta. rewrite Hlt, andb_false_r. reflexivity. }
  split; [exact Hcore|]. split; [exact Happ|]. split.
  - intros s. unfold Core.step. rewrite Hcore, Hne. reflexivity.
  - intros s. rewrite (app_step_nonheader _ _ Happ), Hne. reflexivity.
Qed.

Lemma long_block_is_body_witness :
  let p := bold_para (String.concat "" (repeat "ABCDEFGHIJ" 10) ++ ":") in
  100 <= String.length (strip (p_text p)) /\ Core.is_section_header p = false.
Proof.
  cbv zeta.
  assert (H : 100 <= String.length (strip (p_text
                (bold_para (String.concat "" (repeat "ABCDEFGHIJ" 10) ++ ":"))))).
  { apply Nat.leb_le. vm_compute. reflexivity. }
  split; [exact H | exact (proj1 (long_block_is_body _ H))].
Defined.

(** the app.py extractor keeps the text before the first header: it is
    stored under "Main Content", and stays there as long as no later
    header is itself named "Main Content" *)
Theorem app_keeps_preamble (pre : list para) (h : para) (rest : list para) :
  Forall (fun p => app_header p = false) pre ->
  stripped_texts pre <> [] ->
  app_header h = true ->
  header_name h <> "Main Content" ->
  Forall (fun p => app_header p = false \/ header_name p <> "Main Content") rest ->
  Injector.lookup "Main Content" (App.extract_sections (pre ++ h :: rest)%list) =
  Some (join nl (stripped_texts pre)).
Proof.
  intros Hpre Hne Hh Hn Hrest. unfold App.extract_sections, App.init.
  rewrite fold_left_app, (app_nonheaders_fold _ _ _ _ Hpre). simpl.
  rewrite (app_step_header _ _ Hh). simpl.
  destruct (stripped_texts pre) as [|t ts] eqn:E; [contradiction|].
  destruct (app_rest_keeps rest
              (App.mka (header_name h) [] [("Main Content", join nl (t :: ts))])
              (join nl (t :: ts)) Hn) as [Hc Hl];
    [cbn [Injector.lookup App.sections]; rewrite ?String.eqb_refl; reflexivity | exact Hrest |].
  destruct (App.content (fold_left App.step rest
              (App.mka (header_name h) [] [("Main Content", join nl (t :: ts))]))); [exact Hl|].
  rewrite InjectFacts.lookup_dict_set_ne by exact Hc. exact Hl.
Qed.

Lemma app_keeps_preamble_witness :
  Forall (fun p => app_header p = false) [plain_para "Intro text."] /\
  stripped_texts [plain_para "Intro text."] <> [] /\
  app_header (bold_para "BACKGROUND") = true /\
  header_name (bold_para "BACKGROUND") <> "Main Content" /\
  Forall (fun p => app_header p = false \/ header_name p <> "Main Content")
         [plain_para "We found X."] /\
  Injector.lookup "Main Content" (App.extract_sections preamble_doc) = Some "Intro text.".
Proof.
  assert (H1 : Forall (fun p => app_header p = false) [plain_para "Intro text."])
    by (repeat constructor).
  assert (H2 : stripped_texts [plain_para "Intro text."] <> []) by (vm_compute; discriminate).
  assert (H3 : app_header (bold_para "BACKGROUND") = true) by (vm_compute; reflexivity).
  assert (H4 : header_name (bold_para "BACKGROUND") <> "Main Content") by (vm_compute; discriminate).
  assert (H5 : Forall (fun p => app_header p = false \/ header_name p <> "Main Content")
                      [plain_para "We found X."]) by (repeat constructor; left; reflexivity).
  refine (conj H1 (conj H2 (conj H3 (conj H4 (conj H5 _))))).
  exact (app_keeps_preamble [plain_para "Intro text."] (bold_para "BACKGROUND")
           [plain_para "We found X."] H1 H2 H3 H4 H5).
Defined.

Lemma core_keys_from_headers_witness :
  In ("BACKGROUND", "We found X.")
     (Core.extract_document_sections_from_docx [bold_para "BACKGROUND"; plain_para "We found X."]) /\
  ("BACKGROUND" = "Main Content" \/
   from_core_header [bold_para "BACKGROUND"; plain_para "We found X."] "BACKGROUND").
Proof.
  assert (H : In ("BACKGROUND", "We found X.")
                (Core.extract_document_sections_from_docx
                   [bold_para "BACKGROUND"; plain_para "We found X."]))
    by (vm_compute; left; reflexivity).
  split; [exact H|]. exact (core_keys_from_headers _ _ _ H).
Defined.

Lemma core_without_headers_witness :
  Forall (fun p => Core.is_section_header p = false) [plain_para "  Intro text."; plain_para " "] /\
  Core.extract_document_sections_from_docx [plain_para "  Intro text."; plain_para " "] =
  [("Main Content", "  Intro text.")].
Proof.
  assert (H : Forall (fun p => Core.is_section_header p = false)
                     [plain_para "  Intro text."; plain_para " "]) by (repeat constructor).
  split; [exact H|]. rewrite (core_without_headers _ H). vm_compute. reflexivity.
Defined.

Lemma app_without_headers_witness :
  Forall (fun p => app_header p = false) [bold_para "Background"; plain_para "We found X."] /\
  App.extract_sections [bold_para "Background"; plain_para "We found X."] =
  [("Main Content", "Background" ++ nl ++ "We found X.")].
Proof.
  assert (H : Forall (fun p => app_header p = false)
                     [bold_para "Background"; plain_para "We found X."]) by (repeat constructor).
  split; [exact H|]. rewrite (app_without_headers _ H). vm_compute. reflexivity.
Defined.

Lemma app_sections_shape_witness :
  In ("BACKGROUND", "We found X.") (App.extract_sections [bold_para "BACKGROUND"; plain_para "We found X."]) /\
  "We found X." <> "" /\
  ("BACKGROUND" = "Main Content" \/
   from_app_header [bold_para "BACKGROUND"; plain_para "We found X."] "BACKGROUND").
Proof.
  assert (H : In ("BACKGROUND", "We found X.")
                (App.extract_sections [bold_para "BACKGROUND"; plain_para "We found X."]))
    by (vm_compute; left; reflexivity).
  split; [exact H|]. exact (app_sections_shape _ _ _ H).
Defined.

End ExtractMore.

(** ** Further facts about the comment injector *)

Module InjectMore.
Import Injector Save Spec SpecX StrFacts.

Lemma stage_unfold (pkg : option package) (cs : list (Z * string * string * datetime)) :
  stage pkg cs = fold_left add_step cs (new_wdoc pkg).
Proof. reflexivity. Qed.

Lemma add_steps_records (cs : list (Z * string * string * datetime)) (w : wdoc) :
  map (fun c => (c_paragraph_index c, c_text c, c_author c, c_date c))
      (comments (fold_left add_step cs w)) =
  (map (fun c => (c_paragraph_index c, c_text c, c_author c, c_date c)) (comments w) ++ cs)%list.
Proof.
  revert w. induction cs as [|[[[i t] a] d] cs IH]; intros w; simpl.
  - now rewrite app_nil_r.
  - rewrite IH. simpl. rewrite map_app, <- app_assoc. reflexivity.
Qed.

Lemma dict_set_same (k v : string) (d : package) :
  lookup k d = Some v -> dict_set k v d = d.
Proof.
  induction d as [|[k' v'] d IH]; simpl; [discriminate|].
  destruct (String.eqb k' k); [intros E; inversion E; reflexivity|].
  intros H. now rewrite (IH H).
Qed.

Lemma replace_fuel_absent (fuel : nat) (pat rep s : string) :
  contains pat s = false -> replace_fuel fuel pat rep s = s.
Proof.
  revert s. induction fuel as [|f IH]; intros s H; [reflexivity|].
  destruct s as [|c s']; [reflexivity|].
  cbn [contains] in H. apply orb_false_iff in H as [Hp Hs].
  cbn [replace_fuel]. rewrite Hp, (IH s' Hs). reflexivity.
Qed.

Lemma replace_fuel_present (x pat rep s : string) (fuel : nat) :
  pat <> "" -> contains pat s = true -> String.length s <= fuel -> contains x rep = true ->
  contains x (replace_fuel fuel pat rep s) = true.
Proof.
  intros Hpat. revert fuel. induction s as [|c s' IH]; intros fuel Hc Hf Hx.
  - destruct pat; [contradiction | discriminate].
  - destruct fuel as [|f]; [simpl in Hf; lia|].
    cbn [replace_fuel]. destruct (prefix pat (String c s')) eqn:Hp.
    + now apply contains_app_l.
    + cbn [contains] in Hc. rewrite Hp in Hc. simpl in Hf.
      cbn [contains]. rewrite (IH f Hc ltac:(lia) Hx). apply orb_true_r.
Qed.

Lemma update_split (files : package) :
  update_document_relationships files =
  manifest_step content_types_path "</Types>" new_type
    (manifest_step rels_path "</Relationships>" new_rel files).
Proof. reflexivity. Qed.

(** the manifest at [path] needs no further change *)
Lemma manifest_step_stable (path pat entry : string) (files : package) :
  pat <> "" -> contains "comments.xml" entry = true ->
  match lookup path (manifest_step path pat entry files) with
  | Some c => contains "comments.xml" c = true \/ replace pat (entry ++ pat) c = c
  | None => True
  end.
Proof.
  intros Hpat Hentry. unfold manifest_step.
  destruct (lookup path files) as [c|] eqn:Hl; [|rewrite Hl; exact I].
  destruct (contains "comments.xml" c) eqn:Hc; simpl.
  - rewrite Hl. now left.
  - rewrite InjectFacts.lookup_dict_set_eq.
    destruct (contains pat c) eqn:Hpc.
    + left. unfold replace at 1. apply replace_fuel_present; auto.
      apply contains_app_l, Hentry.
    + right. unfold replace.
      rewrite (replace_fuel_absent (String.length c) pat (entry ++ pat) c Hpc).
      exact (replace_fuel_absent _ _ _ _ Hpc).
Qed.

Lemma manifest_step_id (path pat entry : string) (files : package) :
  match lookup path files with
  | Some c => contains "comments.xml" c = true \/ replace pat (entry ++ pat) c = c
  | None => True
  end ->
  manifest_step path pat entry files = files.
Proof.
  unfold manifest_step. destruct (lookup path files) as [c|] eqn:Hl; [|reflexivity].
  intros [H|H]; [now rewrite H|].
  destruct (negb _); [|reflexivity]. rewrite H. now apply dict_set_same.
Qed.

Lemma lookup_manifest_step_ne (path q pat entry : string) (files : package) :
  q <> path -> lookup q (manifest_step path pat entry files) = lookup q files.
Proof.
  intros Hne. unfold manifest_step.
  destruct (lookup path files); [|reflexivity].
  destruct (negb _); [|reflexivity].
  apply InjectFacts.lookup_dict_set_ne. congruence.
Qed.

Lemma new_rel_names_comments : contains "comments.xml" new_rel = true.
Proof. vm_compute. reflexivity. Qed.

Lemma new_type_names_comments : contains "comments.xml" new_type = true.
Proof. vm_compute. reflexivity. Qed.

Lemma lookup_extract_nodup (k : string) (z d : package) :
  NoDup (map fst z) ->
  lookup k (extract_into z d) = match lookup k z with Some v => Some v | None => lookup k d end.
Proof.
  unfold extract_into. revert d.
  induction z as [|[k' v'] z IH]; simpl; intros d Hnd; [reflexivity|].
  inversion Hnd as [|? ? Hnin Hnd']; subst.
  rewrite (IH _ Hnd'). destruct (String.eqb_spec k' k) as [->|Hne].
  - assert (Hz : lookup k z = None).
    { clear IH Hnd Hnd'. induction z as [|[k2 v2] z IHz]; simpl; [reflexivity|].
      simpl in Hnin. destruct (String.eqb_spec k2 k); [exfalso; auto|]. apply IHz. auto. }
    rewrite Hz. apply InjectFacts.lookup_dict_set_eq.
  - destruct (lookup k z); [reflexivity|]. apply InjectFacts.lookup_dict_set_ne. exact Hne.
Qed.

(** add_comment: the staged comments keep, in call order, the paragraph
    index, text, author and date of each call, with ids 1, 2, ..., N, and
    the counter ends at N + 1 *)
Theorem stage_records (pkg : option package) (cs : list (Z * string * string * datetime)) :
  map (fun c => (c_paragraph_index c, c_text c, c_author c, c_date c)) (comments (stage pkg cs)) = cs /\
  map c_id (comments (stage pkg cs)) = seq 1 (length cs) /\
  comment_id (stage pkg cs) = S (length cs).
Proof.
  rewrite stage_unfold. split; [|split].
  - rewrite add_steps_records. reflexivity.
  - exact (proj1 (proj2 (InjectFacts.add_steps_spec cs (new_wdoc pkg)))).
  - exact (proj2 (proj2 (InjectFacts.add_steps_spec cs (new_wdoc pkg)))).
Qed.

(** _update_document_relationships changes no file other than the
    relationship manifest and the content-type manifest *)
Theorem update_touches_only_manifests (files : package) (path : string) :
  path <> rels_path -> path <> content_types_path ->
  lookup path (update_document_relationships files) = lookup path files.
Proof.
  intros H1 H2. rewrite update_split, !lookup_manifest_step_ne by assumption. reflexivity.
Qed.

Lemma update_touches_only_manifests_witness :
  "word/document.xml" <> rels_path /\ "word/document.xml" <> content_types_path /\
  lookup "word/document.xml" (update_document_relationships demo_pkg) = Some "<w:document/>".
Proof.
  assert (H1 : "word/document.xml" <> rels_path) by discriminate.
  assert (H2 : "word/document.xml" <> content_types_path) by discriminate.
  refine (conj H1 (conj H2 _)).
  exact (update_touches_only_manifests demo_pkg "word/document.xml" H1 H2).
Defined.

(** _update_document_relationships is idempotent: running it on files it
    has already updated changes nothing *)
Theorem update_idempotent (files : package) :
  update_document_relationships (update_document_relationships files) =
  update_document_relationships files.
Proof.
  rewrite !update_split.
  set (r1 := manifest_step rels_path "</Relationships>" new_rel files).
  set (u := manifest_step content_types_path "</Types>" new_type r1).
  assert (Hr : manifest_step rels_path "</Relationships>" new_rel u = u).
  { apply manifest_step_id. unfold u.
    rewrite lookup_manifest_step_ne by exact (not_eq_sym InjectFacts.rels_ne_ct).
    apply manifest_step_stable; [discriminate | exact new_rel_names_comments]. }
  rewrite Hr. apply manifest_step_id.
  apply manifest_step_stable; [discriminate | exact new_type_names_comments].
Qed.

(** a successful injection (python-docx loads the file and writes a
    package that names no file twice, and no call fails): it returns True,
    removes the scratch copies, and the output archive holds the new
    comments part (replacing any comments part python-docx wrote) and every
    other file of the package python-docx wrote, unchanged except the two
    manifests *)
Theorem inject_success_parts (lib : docx_lib) (pkg doc : package)
    (cs : list (Z * string * string * datetime)) (hf : hfault) :
  lib pkg = Some doc -> NoDup (map fst doc) ->
  let r := inject lib (Some pkg) cs NoFault hf in
  fst r = Returned true /\ scratch (snd r) = None /\ temp_docx (snd r) = None /\
  out_part (snd r) comments_path = Some (comments_xml (comments (stage (Some pkg) cs))) /\
  (forall path, path <> comments_path -> path <> rels_path -> path <> content_types_path ->
     out_part (snd r) path = lookup path doc).
Proof.
  intros Hlib Hnd. unfold inject, save_with_comments.
  rewrite InjectFacts.stage_doc_path. cbn [docx_open]. rewrite Hlib.
  cbn -[comments_xml update_document_relationships extract_into].
  unfold out_part; cbn -[comments_xml update_document_relationships extract_into].
  split; [reflexivity|]. split; [reflexivity|]. split; [reflexivity|]. split.
  - rewrite InjectFacts.update_keeps_comments. apply InjectFacts.lookup_dict_set_eq.
  - intros path H1 H2 H3.
    rewrite update_touches_only_manifests by assumption.
    rewrite InjectFacts.lookup_dict_set_ne by (apply not_eq_sym; exact H1).
    rewrite lookup_extract_nodup by exact Hnd.
    destruct (lookup path doc); reflexivity.
Qed.

Lemma inject_success_parts_witness :
  pydocx_known min_docx = Some min_docx_saved /\ NoDup (map fst min_docx_saved) /\
  out_part (snd (inject pydocx_known (Some min_docx)
                   [(0%Z, "Add detail.", "AI Feedback", demo_date)] NoFault HandlerOk))
           "word/styles.xml" = Some (decl_lxml ++ styles_xml).
Proof.
  assert (H1 : pydocx_known min_docx = Some min_docx_saved) by (vm_compute; reflexivity).
  assert (H2 : NoDup (map fst min_docx_saved)).
  { cbn. repeat constructor; cbn; intuition discriminate. }
  refine (conj H1 (conj H2 _)).
  refine (proj2 (proj2 (proj2 (proj2 (inject_success_parts pydocx_known min_docx min_docx_saved
            [(0%Z, "Add detail.", "AI Feedback", demo_date)] HandlerOk H1 H2)))) _ _ _ _);
    discriminate.
Defined.

End InjectMore.

(** ** Further facts about the summary copy and its caller *)

Module ReviewFacts.
Import Injector Save Fallback Review Spec SpecX.

Fixpoint total (g : list (string * list fcomment)) : nat :=
  match g with [] => 0 | (_, l) :: g' => length l + total g' end.

Lemma total_dd_append (k : string) (c : fcomment) (d : list (string * list fcomment)) :
  total (dd_append k c d) = S (total d).
Proof.
  induction d as [|[k' l] d IH]; simpl; [reflexivity|].
  destruct (String.eqb k' k); simpl; [rewrite length_app; simpl; lia | rewrite IH; lia].
Qed.

Lemma total_group (cs : list fcomment) : total (group_by_section cs) = length cs.
Proof.
  unfold group_by_section.
  assert (H : forall d, total (fold_left (fun d c => dd_append (fc_section c) c d) cs d)
                        = total d + length cs).
  { induction cs as [|c cs IH]; intros d; simpl; [lia|].
    rewrite IH, total_dd_append. lia. }
  rewrite H. reflexivity.
Qed.

Lemma bullets_app (l1 l2 : list elem) : bullets (l1 ++ l2) = bullets l1 + bullets l2.
Proof. unfold bullets. now rewrite filter_app, length_app. Qed.

Lemma headings_at_app (n : nat) (l1 l2 : list elem) :
  headings_at n (l1 ++ l2) = (headings_at n l1 ++ headings_at n l2)%list.
Proof. unfold headings_at. apply flat_map_app. Qed.

Lemma bullets_map_bullet (l : list fcomment) : bullets (map bullet l) = length l.
Proof. induction l as [|c l IH]; [reflexivity|]. exact (f_equal S IH). Qed.

Lemma headings_map_bullet (l : list fcomment) : headings_at 2 (map bullet l) = [].
Proof. induction l as [|c l IH]; [reflexivity|]. exact IH. Qed.

Lemma bullets_block (sc : string * list fcomment) : bullets (section_block sc) = length (snd sc).
Proof. destruct sc as [t l]. exact (bullets_map_bullet l). Qed.

Lemma headings_block (sc : string * list fcomment) : headings_at 2 (section_block sc) = [fst sc].
Proof. destruct sc as [t l]. exact (f_equal (cons t) (headings_map_bullet l)). Qed.

Lemma bullets_blocks (g : list (string * list fcomment)) :
  bullets (concat (map section_block g)) = total g.
Proof.
  induction g as [|[t l] g IH]; [reflexivity|].
  change (concat (map section_block ((t, l) :: g)))
    with (section_block (t, l) ++ concat (map section_block g))%list.
  rewrite bullets_app, bullets_block, IH. reflexivity.
Qed.

Lemma headings_blocks (g : list (string * list fcomment)) :
  headings_at 2 (concat (map section_block g)) = map fst g.
Proof.
  induction g as [|[t l] g IH]; [reflexivity|].
  change (concat (map section_block ((t, l) :: g)))
    with (section_block (t, l) ++ concat (map section_block g))%list.
  rewrite headings_at_app, headings_block, IH. reflexivity.
Qed.

Lemma group_keys (cs : list fcomment) :
  map fst (group_by_section cs) = dedup_first (map fc_section cs).
Proof.
  rewrite FallbackFacts.group_by_section_spec. unfold grouped.
  rewrite map_map. apply map_id.
Qed.




End ReviewFacts.

(** ** Facts about the session routes of app.py *)

Module SessionFacts.
Import Injector Fallback AppSessions SpecX.

Lemma dict_get_dict_set_eq {V} (k : string) (v : V) (d : list (string * V)) :
  dict_get k (dict_set k v d) = Some v.
Proof.
  induction d as [|[k' v'] d IH]; simpl.
  - now rewrite String.eqb_refl.
  - destruct (String.eqb_spec k' k) as [->|Hne]; simpl.
    + now rewrite String.eqb_refl.
    + destruct (String.eqb_spec k' k); [contradiction | exact IH].
Qed.

Lemma dict_get_dict_set_ne {V} (k k0 : string) (v : V) (d : list (string * V)) :
  k0 <> k -> dict_get k (dict_set k0 v d) = dict_get k d.
Proof.
  intros Hne. induction d as [|[k' v'] d IH]; simpl.
  - destruct (String.eqb_spec k0 k); [contradiction | reflexivity].
  - destruct (String.eqb_spec k' k0) as [->|Hne']; simpl.
    + destruct (String.eqb_spec k0 k); [contradiction | reflexivity].
    + destruct (String.eqb k' k); [reflexivity | exact IH].
Qed.

Lemma py_key_eq_sym (a b : json) : py_key_eq a b = py_key_eq b a.
Proof.
  destruct a, b; simpl; try reflexivity;
    try apply String.eqb_sym; try apply Z.eqb_sym.
Qed.

Lemma py_key_eq_str (k : json) (name : string) : py_key_eq k (JStr name) = true -> k = JStr name.
Proof.
  destruct k as [|b|z|s|l|kvs]; simpl; try discriminate.
  intros H. apply String.eqb_eq in H. now subst.
Qed.

Lemma py_key_eq_refl_hashable (k : json) : hashable k = true -> py_key_eq k k = true.
Proof.
  destruct k as [|b|z|s|l|kvs]; simpl; try discriminate; intros _;
    try apply String.eqb_refl; try apply Z.eqb_refl; reflexivity.
Qed.

Lemma jd_get_append_eq (k v : json) (d : list (json * list json)) :
  hashable k = true ->
  jd_get k (jd_append k v d) =
  Some ((match jd_get k d with Some vs => vs | None => [] end) ++ [v])%list.
Proof.
  intros Hk. induction d as [|[k' vs] d IH]; simpl.
  - now rewrite (py_key_eq_refl_hashable k Hk).
  - destruct (py_key_eq k' k) eqn:E; simpl; rewrite E; [reflexivity | exact IH].
Qed.

Lemma jd_get_append_str_ne (k2 v : json) (name : string) (d : list (json * list json)) :
  py_key_eq k2 (JStr name) = false ->
  jd_get k2 (jd_append (JStr name) v d) = jd_get k2 d.
Proof.
  intros Hne. induction d as [|[k' vs] d IH]; cbn [jd_append jd_get].
  - now rewrite py_key_eq_sym, Hne.
  - destruct (py_key_eq k' (JStr name)) eqn:E; cbn [jd_get].
    + apply py_key_eq_str in E. subst k'. now rewrite py_key_eq_sym, Hne.
    + destruct (py_key_eq k' k2); [reflexivity | exact IH].
Qed.

Lemma analysis_point_ok (item : json) :
  (exists n, analysis_point item = inl n) <-> item_ok item.
Proof.
  unfold item_ok. destruct item as [| | | | |kvs]; simpl;
    try (split; [intros [n H]; discriminate | intros [kvs [H _]]; discriminate]).
  split.
  - intros [n H]. exists kvs. split; [reflexivity|].
    destruct (obj_get "index" kvs) as [[| | | | |]|]; try discriminate; exact I.
  - intros [kvs' [E H]]. inversion E; subst kvs'.
    destruct (obj_get "index" kvs) as [[| | | | |]|]; try contradiction; eexists; reflexivity.
Qed.

Lemma render_items_ok (items : list json) :
  (exists ps, render_items items = inl ps) <-> Forall item_ok items.
Proof.
  induction items as [|item items IH]; simpl.
  - split; [constructor | eexists; reflexivity].
  - rewrite Forall_cons_iff, <- analysis_point_ok, <- IH.
    destruct (analysis_point item) as [n|e]; [destruct (render_items items) as [ps|e']|].
    + split; [intros _; split; eexists; reflexivity | intros _; eexists; reflexivity].
    + split; [intros [x Hx]; discriminate | intros [_ [x Hx]]; discriminate].
    + split; [intros [x Hx]; discriminate | intros [[x Hx] _]; discriminate].
Qed.

Lemma render_sections_ok (acc : list (json * list json)) :
  (exists body, render_sections acc = inl body) <-> Forall (fun kv => Forall item_ok (snd kv)) acc.
Proof.
  induction acc as [|[k items] acc IH]; simpl.
  - split; [constructor | eexists; reflexivity].
  - rewrite Forall_cons_iff, <- render_items_ok, <- IH. simpl.
    destruct (render_items items) as [ps|e]; [destruct (render_sections acc) as [qs|e']|].
    + split; [intros _; split; eexists; reflexivity | intros _; eexists; reflexivity].
    + split; [intros [x Hx]; discriminate | intros [_ [x Hx]]; discriminate].
    + split; [intros [x Hx]; discriminate | intros [[x Hx] _]; discriminate].
Qed.

(** accept_feedback with a session id that names no session: 404 and the
    sessions are left as they were *)
Theorem accept_feedback_unknown_session (kvs : list (string * json)) (st : store) :
  hashable (get_or_none "session_id" kvs) = true ->
  (forall sid, get_or_none "session_id" kvs = JStr sid -> dict_get sid st = None) ->
  accept_feedback (JObj kvs) st = (JsonResp 404 [("error", JStr "Session not found")], st).
Proof.
  intros Hh Hs. unfold accept_feedback. rewrite Hh. simpl.
  destruct (get_or_none "session_id" kvs) eqn:E; try reflexivity.
  rewrite (Hs s eq_refl). reflexivity.
Qed.

Lemma accept_feedback_unknown_session_witness :
  hashable (get_or_none "session_id" [("session_id", JStr "nope")]) = true /\
  (forall sid, get_or_none "session_id" [("session_id", JStr "nope")] = JStr sid ->
               dict_get sid ([] : store) = None) /\
  accept_feedback (JObj [("session_id", JStr "nope")]) [] =
    (JsonResp 404 [("error", JStr "Session not found")], []).
Proof.
  assert (H1 : hashable (get_or_none "session_id" [("session_id", JStr "nope")]) = true)
    by reflexivity.
  assert (H2 : forall sid, get_or_none "session_id" [("session_id", JStr "nope")] = JStr sid ->
                           dict_get sid ([] : store) = None) by reflexivity.
  refine (conj H1 (conj H2 _)).
  exact (accept_feedback_unknown_session _ [] H1 H2).
Defined.

(** accept_feedback on an existing session with a string section name:
    200; the item is appended at the end of that section's list (a new
    list on first acceptance); the session's other lists, its file and
    its sections, and every other session are unchanged *)
Theorem accept_feedback_appends (kvs : list (string * json)) (st : store) (sid : string)
    (sess : session) (name : string) :
  get_or_none "session_id" kvs = JStr sid ->
  dict_get sid st = Some sess ->
  get_or_none "section_name" kvs = JStr name ->
  let r := accept_feedback (JObj kvs) st in
  fst r = JsonResp 200 [("message", JStr "Feedback accepted")] /\
  (forall sid', sid' <> sid -> dict_get sid' (snd r) = dict_get sid' st) /\
  exists sess', dict_get sid (snd r) = Some sess' /\
    filename sess' = filename sess /\ filepath sess' = filepath sess /\
    sections sess' = sections sess /\
    jd_get (JStr name) (accepted_feedback sess') =
      Some ((match jd_get (JStr name) (accepted_feedback sess) with
             | Some vs => vs | None => [] end) ++ [get_or_none "feedback_item" kvs])%list /\
    (forall k, py_key_eq k (JStr name) = false ->
       jd_get k (accepted_feedback sess') = jd_get k (accepted_feedback sess)).
Proof.
  intros Hsid Hst Hname. unfold accept_feedback. rewrite Hsid, Hst, Hname. simpl.
  split; [reflexivity|]. split.
  - intros sid' Hne. apply dict_get_dict_set_ne. congruence.
  - eexists. split; [apply dict_get_dict_set_eq|]. simpl.
    repeat split; [apply jd_get_append_eq; reflexivity|].
    intros k Hk. now apply jd_get_append_str_ne.
Qed.

Lemma accept_feedback_appends_witness :
  let st := [("s1", mksess "a.docx" "/tmp/a.docx" [] [])] in
  let kvs := [("session_id", JStr "s1"); ("section_name", JStr "BACKGROUND");
              ("feedback_item", JObj [("accepted", JBool true); ("index", JInt 0)])] in
  get_or_none "session_id" kvs = JStr "s1" /\
  dict_get "s1" st = Some (mksess "a.docx" "/tmp/a.docx" [] []) /\
  get_or_none "section_name" kvs = JStr "BACKGROUND" /\
  fst (accept_feedback (JObj kvs) st) = JsonResp 200 [("message", JStr "Feedback accepted")].
Proof.
  cbv zeta.
  assert (H1 : get_or_none "session_id"
                 [("session_id", JStr "s1"); ("section_name", JStr "BACKGROUND");
                  ("feedback_item", JObj [("accepted", JBool true); ("index", JInt 0%Z)])]
               = JStr "s1") by reflexivity.
  assert (H2 : dict_get "s1" [("s1", mksess "a.docx" "/tmp/a.docx" [] [])]
               = Some (mksess "a.docx" "/tmp/a.docx" [] [])) by reflexivity.
  assert (H3 : get_or_none "section_name"
                 [("session_id", JStr "s1"); ("section_name", JStr "BACKGROUND");
                  ("feedback_item", JObj [("accepted", JBool true); ("index", JInt 0%Z)])]
               = JStr "BACKGROUND") by reflexivity.
  refine (conj H1 (conj H2 (conj H3 _))).
  exact (proj1 (accept_feedback_appends _ _ "s1" _ "BACKGROUND" H1 H2 H3)).
Defined.





End SessionFacts.
